(** * Partition scaling load driver: metrics aggregation and reporting

    Shallow embedding of [src/experiment_partitions.py]: the [Metrics]
    aggregate, the response classification of
    [PartitionScalingUser.submit_job], and the run-start and run-stop
    hooks, followed by the properties of the driver.

    Modelling conventions.
    - Python [int] is [Z]; Python [float] is IEEE binary64, taken from
      the Standard Library's [SpecFloat] at precision 53 and maximal
      exponent 1024.
    - Arithmetic that can raise returns in the [result] monad.
    - The clock ([time.time()]), the wall-clock stamp
      ([datetime.now().isoformat()]), the object identity ([id(self)])
      and the HTTP response are inputs of the functions that read them.
    - The results file is the list of records written through
      [csv.writer]; [None] stands for a path that is no regular file.
    - Console output is not part of the model, except that the early
      return of the run-stop hook is a separate outcome. *)

From Stdlib Require Import ZArith List String Bool Lia.
From Stdlib Require Import DecimalString.
From Stdlib Require DecimalZ DecimalPos.
From Stdlib Require Import Floats.SpecFloat.
Import ListNotations.

#[local] Set Warnings "-register-all".

Open Scope Z_scope.

(* ===================================================================== *)
(** * Python values and arithmetic                                         *)
(* ===================================================================== *)

(** Exceptions the arithmetic of the driver can raise. *)
Inductive exn : Type :=
| OverflowError
| ZeroDivisionError.

Inductive result (A : Type) : Type :=
| Ok (a : A)
| Raise (e : exn).

Arguments Ok {A} a.
Arguments Raise {A} e.

Definition bind {A B : Type} (c : result A) (k : A -> result B) : result B :=
  match c with
  | Ok a => k a
  | Raise e => Raise e
  end.

Declare Scope py_scope.
Delimit Scope py_scope with py.
Notation "x <- c ;; k" := (bind c (fun x => k))
  (at level 100, c at next level, right associativity) : py_scope.
Open Scope py_scope.

(** A Python [float]. *)
Definition float : Type := spec_float.

Module Float64.

Definition prec : Z := 53.
Definition emax : Z := 1024.

Definition sub : float -> float -> float := SFsub prec emax.
Definition mul : float -> float -> float := SFmul prec emax.
Definition div : float -> float -> float := SFdiv prec emax.

Definition is_infinite (f : float) : bool :=
  match f with
  | S754_infinity _ => true
  | _ => false
  end.

Definition is_zero (f : float) : bool :=
  match f with
  | S754_zero _ => true
  | _ => false
  end.

(** The nearest double of an integer, ties to even; integers beyond
    the range of a double round to an infinity. *)
Definition nearest (z : Z) : float := binary_normalize prec emax z 0 false.

(** An integer as an exact, unnormalised binary number. *)
Definition exact (z : Z) : float :=
  match z with
  | Z0 => S754_zero false
  | Zpos p => S754_finite false p 0
  | Zneg p => S754_finite true p 0
  end.

(** [f > z], compared exactly as Python compares a float with an int:
    a NaN is greater than nothing. *)
Definition gt_int (f : float) (z : Z) : bool :=
  match f with
  | S754_nan => false
  | S754_infinity s => negb s
  | S754_zero _ => 0 >? z
  | S754_finite s m e =>
      let sm := if s then Zneg m else Zpos m in
      if 0 <=? e then sm * 2 ^ e >? z else sm >? z * 2 ^ (- e)
  end.

End Float64.

(** A Python number: the driver mixes [int] and [float]. *)
Inductive pynum : Type :=
| PyInt (z : Z)
| PyFloat (f : float).

(** [float(z)] as the arithmetic operators apply it to an [int] operand:
    [OverflowError] when the integer is too large for a double. *)
Definition float_of_int (z : Z) : result float :=
  let f := Float64.nearest z in
  if Float64.is_infinite f then Raise OverflowError else Ok f.

Definition to_float (x : pynum) : result float :=
  match x with
  | PyInt z => float_of_int z
  | PyFloat f => Ok f
  end.

(** [a / b] on two [int]s: the correctly rounded quotient. *)
Definition int_truediv (a b : Z) : result float :=
  if b =? 0 then Raise ZeroDivisionError
  else
    let q := Float64.div (Float64.exact a) (Float64.exact b) in
    if Float64.is_infinite q then Raise OverflowError else Ok q.

(** [a / b] on two [float]s: only a zero divisor raises. *)
Definition float_truediv (a b : float) : result float :=
  if Float64.is_zero b then Raise ZeroDivisionError
  else Ok (Float64.div a b).

(** The operator [/]. *)
Definition py_truediv (x y : pynum) : result pynum :=
  match x, y with
  | PyInt a, PyInt b => q <- int_truediv a b ;; Ok (PyFloat q)
  | _, _ =>
      a <- to_float x ;;
      b <- to_float y ;;
      q <- float_truediv a b ;;
      Ok (PyFloat q)
  end.

(** The operator [*]. *)
Definition py_mul (x y : pynum) : result pynum :=
  match x, y with
  | PyInt a, PyInt b => Ok (PyInt (a * b))
  | _, _ =>
      a <- to_float x ;;
      b <- to_float y ;;
      Ok (PyFloat (Float64.mul a b))
  end.

(** [x > z] for an [int] literal [z]. *)
Definition py_gt_int (x : pynum) (z : Z) : bool :=
  match x with
  | PyInt a => a >? z
  | PyFloat f => Float64.gt_int f z
  end.

(** [str(z)], as an f-string renders an [int]. *)
Definition py_str_int (z : Z) : string :=
  NilZero.string_of_int (Z.to_int z).

(* ===================================================================== *)
(** * Decoded JSON                                                        *)
(* ===================================================================== *)

(** What [response.json()] returns; a JSON object is a [dict], kept as
    its items. *)
Inductive json : Type :=
| JNull
| JBool (b : bool)
| JInt (z : Z)
| JFloat (f : float)
| JString (s : string)
| JArray (items : list json)
| JObject (items : list (string * json)).

Fixpoint dict_lookup (d : list (string * json)) (k : string) : option json :=
  match d with
  | [] => None
  | (k', v) :: d' => if String.eqb k' k then Some v else dict_lookup d' k
  end.

(** [d.get(k)]: [None] when the key is absent. *)
Definition dict_get (d : list (string * json)) (k : string) : json :=
  match dict_lookup d k with
  | Some v => v
  | None => JNull
  end.

(** Truth value of a decoded value. *)
Definition truthy (v : json) : bool :=
  match v with
  | JNull => false
  | JBool b => b
  | JInt z => negb (z =? 0)
  | JFloat f => negb (Float64.is_zero f)
  | JString s => negb (String.eqb s EmptyString)
  | JArray items => match items with [] => false | _ => true end
  | JObject items => match items with [] => false | _ => true end
  end.

(** [a or b]. *)
Definition py_or (a b : json) : json := if truthy a then a else b.

(* ===================================================================== *)
(** * Global metrics tracking                                             *)
(* ===================================================================== *)

Record Metrics : Type := mkMetrics {
  total_jobs_submitted : Z;
  successful_submissions : Z;
  failed_submissions : Z;
  rate_limited : Z;
  start_time : option float;
  partition_count : Z;
  worker_count : Z;
  job_ids : list json
}.

(** [Metrics.__init__] *)
Definition Metrics_init : Metrics :=
  {| total_jobs_submitted := 0;
     successful_submissions := 0;
     failed_submissions := 0;
     rate_limited := 0;
     start_time := None;
     partition_count := 16;
     worker_count := 4;
     job_ids := [] |}.

(** [Metrics.reset]; [now] is the reading of [time.time()]. *)
Definition reset (m : Metrics) (now : float) : Metrics :=
  {| total_jobs_submitted := 0;
     successful_submissions := 0;
     failed_submissions := 0;
     rate_limited := 0;
     start_time := Some now;
     partition_count := partition_count m;
     worker_count := worker_count m;
     job_ids := [] |}.

(** The part of [Metrics.get_throughput] after the guard on
    [start_time]. *)
Definition throughput_since (m : Metrics) (st now : float) : result pynum :=
  let elapsed := Float64.sub now st in
  if py_gt_int (PyFloat elapsed) 0
  then py_truediv (PyInt (successful_submissions m)) (PyFloat elapsed)
  else Ok (PyInt 0).

(** [Metrics.get_throughput]; [now] is the reading of [time.time()]. *)
Definition get_throughput (m : Metrics) (now : float) : result pynum :=
  match start_time m with
  | None => Ok (PyInt 0)
  | Some st => throughput_since m st now
  end.

(** [Metrics.get_error_rate] *)
Definition get_error_rate (m : Metrics) : result pynum :=
  let total := successful_submissions m + failed_submissions m in
  if py_gt_int (PyInt total) 0
  then
    q <- py_truediv (PyInt (failed_submissions m)) (PyInt total) ;;
    py_mul q (PyInt 100)
  else Ok (PyInt 0).

(** Field updates of the shared aggregate. *)
Definition set_total_jobs_submitted (v : Z) (m : Metrics) : Metrics :=
  mkMetrics v (successful_submissions m) (failed_submissions m)
    (rate_limited m) (start_time m) (partition_count m) (worker_count m)
    (job_ids m).

Definition set_successful_submissions (v : Z) (m : Metrics) : Metrics :=
  mkMetrics (total_jobs_submitted m) v (failed_submissions m)
    (rate_limited m) (start_time m) (partition_count m) (worker_count m)
    (job_ids m).

Definition set_failed_submissions (v : Z) (m : Metrics) : Metrics :=
  mkMetrics (total_jobs_submitted m) (successful_submissions m) v
    (rate_limited m) (start_time m) (partition_count m) (worker_count m)
    (job_ids m).

Definition set_rate_limited (v : Z) (m : Metrics) : Metrics :=
  mkMetrics (total_jobs_submitted m) (successful_submissions m)
    (failed_submissions m) v (start_time m) (partition_count m)
    (worker_count m) (job_ids m).

Definition set_start_time (v : option float) (m : Metrics) : Metrics :=
  mkMetrics (total_jobs_submitted m) (successful_submissions m)
    (failed_submissions m) (rate_limited m) v (partition_count m)
    (worker_count m) (job_ids m).

Definition set_job_ids (v : list json) (m : Metrics) : Metrics :=
  mkMetrics (total_jobs_submitted m) (successful_submissions m)
    (failed_submissions m) (rate_limited m) (start_time m)
    (partition_count m) (worker_count m) v.

(* ===================================================================== *)
(** * The simulated user                                                  *)
(* ===================================================================== *)

Record PartitionScalingUser : Type := mkUser {
  client_id : string;
  jobs_submitted : Z
}.

(** The response of the POST as the classification reads it:
    [response.status_code], and the outcome of [response.json()],
    [None] when the call raises. *)
Record Response : Type := mkResponse {
  status_code : Z;
  json_body : option json
}.

(** What the task reports to the load framework: [response.success()]
    or [response.failure(message)]. *)
Inductive Report : Type :=
| Success
| Failure (message : string).

(** [PartitionScalingUser.on_start]; [self_id] is [id(self)]. *)
Definition on_start (m : Metrics) (self_id : Z) (now : float)
  : Metrics * PartitionScalingUser :=
  let m' :=
    match start_time m with
    | None => set_start_time (Some now) m
    | Some _ => m
    end in
  (m', {| client_id := "partition-test-user-" ++ py_str_int (self_id mod 10);
          jobs_submitted := 0 |}).

(** Line 120: the request is tracked. *)
Definition track_request (m : Metrics) : Metrics :=
  set_total_jobs_submitted (total_jobs_submitted m + 1) m.

(** Lines 128-134: the job identifier of an accepted response.  Any
    exception inside the [try] is swallowed: [response.json()] raising,
    or a decoded value that is no [dict] and so has no [get]. *)
Definition record_job_id (m : Metrics) (r : Response) : Metrics :=
  match json_body r with
  | Some (JObject job_data) =>
      let job_id := py_or (dict_get job_data "id") (dict_get job_data "jobId") in
      if truthy job_id then set_job_ids (job_ids m ++ [job_id]) m else m
  | Some _ => m
  | None => m
  end.

Definition bump_jobs_submitted (u : PartitionScalingUser) : PartitionScalingUser :=
  {| client_id := client_id u; jobs_submitted := jobs_submitted u + 1 |}.

(** Lines 123-157: the branch on the status code. *)
Definition classify_response (m : Metrics) (u : PartitionScalingUser) (r : Response)
  : Metrics * PartitionScalingUser * Report :=
  let code := status_code r in
  if code =? 202 then
    let m1 := set_successful_submissions (successful_submissions m + 1) m in
    (record_job_id m1 r, bump_jobs_submitted u, Success)
  else if (code =? 200) || (code =? 201) then
    (set_successful_submissions (successful_submissions m + 1) m,
     bump_jobs_submitted u, Success)
  else if code =? 429 then
    (set_rate_limited (rate_limited m + 1) m, u, Success)
  else if code >=? 500 then
    (set_failed_submissions (failed_submissions m + 1) m, u,
     Failure ("Server error " ++ py_str_int code))
  else if code >=? 400 then
    (set_failed_submissions (failed_submissions m + 1) m, u,
     Failure ("Client error " ++ py_str_int code))
  else
    (set_failed_submissions (failed_submissions m + 1) m, u,
     Failure ("Unexpected status " ++ py_str_int code)).

(** [PartitionScalingUser.submit_job], from the response on. *)
Definition submit_job (m : Metrics) (u : PartitionScalingUser) (r : Response)
  : Metrics * PartitionScalingUser * Report :=
  classify_response (track_request m) u r.

Definition metrics_of (x : Metrics * PartitionScalingUser * Report) : Metrics :=
  fst (fst x).

Definition report_of (x : Metrics * PartitionScalingUser * Report) : Report :=
  snd x.

(** One user classifying a sequence of responses. *)
Fixpoint submit_all (m : Metrics) (u : PartitionScalingUser) (rs : list Response)
  : Metrics * PartitionScalingUser :=
  match rs with
  | [] => (m, u)
  | r :: rs' =>
      let '(m', u', _) := submit_job m u r in
      submit_all m' u' rs'
  end.

(* ===================================================================== *)
(** * Event handlers for metrics and reporting                            *)
(* ===================================================================== *)

(** [environment.stats.total], as far as the run-stop hook reads it. *)
Record StatsEntry : Type := mkStatsEntry {
  num_requests : Z;
  avg_response_time : pynum
}.

Record Environment : Type := mkEnvironment {
  host : option string;
  stats_total : StatsEntry
}.

(** A field handed to [csv.writer.writerow]. *)
Inductive cell : Type :=
| CellStr (s : string)
| CellNum (x : pynum).

Definition csv_row : Type := list cell.

(** The results path: [None] when [os.path.isfile] is false, otherwise
    the records of the file. *)
Definition csv_path : Type := option (list csv_row).

Definition csv_header : csv_row :=
  [ CellStr "timestamp";
    CellStr "partition_count";
    CellStr "worker_count";
    CellStr "total_submitted";
    CellStr "successful";
    CellStr "failed";
    CellStr "rate_limited";
    CellStr "error_rate_%";
    CellStr "duration_sec";
    CellStr "throughput_jobs_per_sec";
    CellStr "avg_response_time_ms" ].

(** How the run-stop hook ends when no exception escapes it. *)
Inductive StopOutcome : Type :=
| NoTestData
| ResultsSaved.

(** [on_test_start]: the banner, then [metrics.reset()]. *)
Definition on_test_start (m : Metrics) (env : Environment) (now : float) : Metrics :=
  reset m now.

Section Builtins.

(** The builtin [round(x, ndigits)] on a [float], which is no code of
    the driver. *)
Variable round_float : float -> Z -> float.

(** [round(x, ndigits)] for [ndigits >= 0]: an [int] is returned as it
    is. *)
Definition py_round (x : pynum) (ndigits : Z) : pynum :=
  match x with
  | PyInt z => PyInt z
  | PyFloat f => PyFloat (round_float f ndigits)
  end.

(** Lines 243-255: the record of one run. *)
Definition data_row (m : Metrics) (stamp : string)
    (error_rate duration throughput avg : pynum) : csv_row :=
  [ CellStr stamp;
    CellNum (PyInt (partition_count m));
    CellNum (PyInt (worker_count m));
    CellNum (PyInt (total_jobs_submitted m));
    CellNum (PyInt (successful_submissions m));
    CellNum (PyInt (failed_submissions m));
    CellNum (PyInt (rate_limited m));
    CellNum (py_round error_rate 2);
    CellNum (py_round duration 2);
    CellNum (py_round throughput 2);
    CellNum (py_round avg 2) ].

(** Lines 214-255: the file is opened for appending, the header goes
    first into a new file, then the record of the run. *)
Definition save_results (m : Metrics) (env : Environment) (stamp : string)
    (error_rate duration throughput : pynum) (file : csv_path) : list csv_row :=
  let file_exists := match file with Some _ => true | None => false end in
  let f := match file with Some rows => rows | None => [] end in
  let f := if negb file_exists then f ++ [csv_header] else f in
  let avg :=
    if num_requests (stats_total env) >? 0
    then avg_response_time (stats_total env)
    else PyInt 0 in
  f ++ [data_row m stamp error_rate duration throughput avg].

(** [on_test_stop]; [now1] and [now2] are the two readings of
    [time.time()], the second one inside [get_throughput], and
    [stamp] is [datetime.now().isoformat()]. *)
Definition on_test_stop (m : Metrics) (env : Environment)
    (now1 now2 : float) (stamp : string) (file : csv_path)
  : result (StopOutcome * csv_path) :=
  match start_time m with
  | None => Ok (NoTestData, file)
  | Some st =>
      let duration := PyFloat (Float64.sub now1 st) in
      throughput <- get_throughput m now2 ;;
      error_rate <- get_error_rate m ;;
      Ok (ResultsSaved,
          Some (save_results m env stamp error_rate duration throughput file))
  end.

End Builtins.

(* ===================================================================== *)
(** * Runs                                                                *)
(* ===================================================================== *)

(** What happens to the shared aggregate between run start and run
    stop: a user starts, a user classifies a response, or the test is
    started again. *)
Inductive Event : Type :=
| UserStart (self_id : Z) (now : float)
| SubmitJob (u : PartitionScalingUser) (r : Response)
| TestStart (env : Environment) (now : float).

Definition step (m : Metrics) (e : Event) : Metrics :=
  match e with
  | UserStart self_id now => fst (on_start m self_id now)
  | SubmitJob u r => metrics_of (submit_job m u r)
  | TestStart env now => on_test_start m env now
  end.

Definition run (m : Metrics) (evs : list Event) : Metrics :=
  fold_left step evs m.

(** The states of the aggregate a process can be in. *)
Inductive reachable : Metrics -> Prop :=
| reachable_init : reachable Metrics_init
| reachable_step m e : reachable m -> reachable (step m e).

(** The counters add up. *)
Definition accounted (m : Metrics) : Prop :=
  total_jobs_submitted m
  = successful_submissions m + failed_submissions m + rate_limited m.

(** The counters are counts. *)
Definition counters_nonneg (m : Metrics) : Prop :=
  0 <= total_jobs_submitted m /\ 0 <= successful_submissions m /\
  0 <= failed_submissions m /\ 0 <= rate_limited m.

(** [s] occurs in [t]. *)
Definition occurs_in (s t : string) : Prop :=
  exists pre post : string, t = (pre ++ s ++ post)%string.

(** The states of the aggregate after each classification of
    [submit_all]. *)
Fixpoint states_after (m : Metrics) (u : PartitionScalingUser) (rs : list Response)
  : list Metrics :=
  match rs with
  | [] => []
  | r :: rs' =>
      let '(m', u', _) := submit_job m u r in
      m' :: states_after m' u' rs'
  end.

(** An integer whose nearest double is finite. *)
Definition in_double_range (z : Z) : Prop := Z.abs z < 2 ^ 1023.

(** Exactly one of the three outcome counters went up by one, the other
    two were left alone. *)
Definition one_bucket_bumped (m m' : Metrics) : Prop :=
  (successful_submissions m' = successful_submissions m + 1 /\
   failed_submissions m' = failed_submissions m /\
   rate_limited m' = rate_limited m)
  \/
  (successful_submissions m' = successful_submissions m /\
   failed_submissions m' = failed_submissions m + 1 /\
   rate_limited m' = rate_limited m)
  \/
  (successful_submissions m' = successful_submissions m /\
   failed_submissions m' = failed_submissions m /\
   rate_limited m' = rate_limited m + 1).

(** The specification's reading of an accepted response, in its weakest
    form: whenever the decoded body is an object with an [id] or a
    [jobId] field, the value of one of these fields is appended. *)
Definition accepted_as_specified
    (m : Metrics) (u : PartitionScalingUser) (r : Response) : Prop :=
  status_code r = 202 ->
  let m' := metrics_of (submit_job m u r) in
  successful_submissions m' = successful_submissions m + 1 /\
  report_of (submit_job m u r) = Success /\
  (forall d, json_body r = Some (JObject d) ->
     dict_lookup d "id" <> None \/ dict_lookup d "jobId" <> None ->
     exists v,
       (dict_lookup d "id" = Some v \/ dict_lookup d "jobId" = Some v) /\
       job_ids m' = job_ids m ++ [v]) /\
  (json_body r = None -> job_ids m' = job_ids m).

(** The specification's reading of run stop: the hook ends with the
    records that were there, the header if the path was no file, and
    one record of eleven fields. *)
Definition stop_as_specified (round_float : float -> Z -> float)
    (m : Metrics) (env : Environment) (now1 now2 : float) (stamp : string)
    (file : csv_path) : Prop :=
  exists (outcome : StopOutcome) (row : csv_row),
    List.length row = 11%nat /\
    on_test_stop round_float m env now1 now2 stamp file
    = Ok (outcome,
          Some (match file with
                | Some rows => rows ++ [row]
                | None => [csv_header; row]
                end)).

(** ** Sample inputs *)

(** A clock reading at a whole number of seconds. *)
Definition clock_at (z : Z) : float := Float64.nearest z.

Definition sample_user : PartitionScalingUser :=
  snd (on_start Metrics_init 140737 (clock_at 1000)).

Definition accepted_abc123 : Response :=
  mkResponse 202 (Some (JObject [("id"%string, JString "abc123")])).

Definition accepted_unparseable : Response := mkResponse 202 None.

Definition accepted_empty_id : Response :=
  mkResponse 202 (Some (JObject [("id"%string, JString "")])).

Definition accepted_zero_id : Response :=
  mkResponse 202 (Some (JObject [("id"%string, JInt 0)])).

Definition accepted_both_ids : Response :=
  mkResponse 202
    (Some (JObject [("jobId"%string, JString "j-2"); ("id"%string, JString "j-1")])).

Definition accepted_null_id : Response :=
  mkResponse 202 (Some (JObject [("id"%string, JNull); ("jobId"%string, JString "j-2")])).

Definition accepted_falsy_ids : Response :=
  mkResponse 202 (Some (JObject [("id"%string, JString ""); ("jobId"%string, JInt 0)])).

Definition too_many_requests : Response := mkResponse 429 None.

Definition service_unavailable : Response := mkResponse 503 None.

Definition sample_environment : Environment :=
  {| host := Some "http://35.90.44.88:8080"%string;
     stats_total := {| num_requests := 3;
                       avg_response_time := PyFloat (clock_at 12) |} |}.

(** Rounding left out: enough to run the hook on the samples. *)
Definition round_identity (f : float) (ndigits : Z) : float := f.

(** A run: started at second 1000, three responses classified. *)
Definition sample_run : Metrics :=
  run (on_test_start Metrics_init sample_environment (clock_at 1000))
    [ UserStart 140737 (clock_at 1001);
      SubmitJob sample_user accepted_abc123;
      SubmitJob sample_user too_many_requests;
      SubmitJob sample_user service_unavailable ].

(** The record [sample_run] leaves when it is stopped [duration]
    seconds after its start and the throughput is read [elapsed] seconds
    after its start. *)
Definition sample_record (stamp : string) (duration elapsed : Z) : csv_row :=
  [ CellStr stamp;
    CellNum (PyInt 16);
    CellNum (PyInt 4);
    CellNum (PyInt 3);
    CellNum (PyInt 1);
    CellNum (PyInt 1);
    CellNum (PyInt 1);
    CellNum (PyFloat (clock_at 50));
    CellNum (PyFloat (clock_at duration));
    CellNum (PyFloat (Float64.div (clock_at 1) (clock_at elapsed)));
    CellNum (PyFloat (clock_at 12)) ].

(* ===================================================================== *)
(** * Further parts of the driver                                         *)
(* ===================================================================== *)

(** Line 96: the [orderId] of the payload, read off the shared counter
    when the request is built. *)
Definition order_id (m : Metrics) : string :=
  "order-" ++ py_str_int (total_jobs_submitted m).

(** The order identifiers a single user puts into its payloads over a
    sequence of responses: each payload is built before the response to
    it is classified. *)
Fixpoint order_ids (m : Metrics) (u : PartitionScalingUser) (rs : list Response)
  : list string :=
  match rs with
  | [] => []
  | r :: rs' =>
      let '(m', u', _) := submit_job m u r in
      order_id m :: order_ids m' u' rs'
  end.

Definition is_test_start (e : Event) : bool :=
  match e with
  | TestStart _ _ => true
  | _ => false
  end.

Definition is_submit_job (e : Event) : bool :=
  match e with
  | SubmitJob _ _ => true
  | _ => false
  end.

(** The number of responses classified among the events. *)
Definition count_submitted (evs : list Event) : Z :=
  Z.of_nat (List.length (filter is_submit_job evs)).

(** The number of accepted (202) responses of a sequence. *)
Definition count_accepted (rs : list Response) : Z :=
  Z.of_nat (List.length (filter (fun r => status_code r =? 202) rs)).

(** The clock reading of the first user start among the events. *)
Fixpoint first_user_start (evs : list Event) : option float :=
  match evs with
  | [] => None
  | UserStart _ now :: _ => Some now
  | _ :: evs' => first_user_start evs'
  end.

(** One firing of the run-stop hook: the aggregate and the environment
    it finds, the two clock readings and the stamp. *)
Record StopCall : Type := mkStopCall {
  stop_metrics : Metrics;
  stop_environment : Environment;
  stop_now1 : float;
  stop_now2 : float;
  stop_stamp : string
}.

(** Run stops one after the other on the same results path. *)
Fixpoint stop_all (round_float : float -> Z -> float) (file : csv_path)
    (calls : list StopCall) : result csv_path :=
  match calls with
  | [] => Ok file
  | c :: calls' =>
      r <- on_test_stop round_float (stop_metrics c) (stop_environment c)
             (stop_now1 c) (stop_now2 c) (stop_stamp c) file ;;
      stop_all round_float (snd r) calls'
  end.

(** A stop that finds [start_time] set and counters a double can hold. *)
Definition stop_call_ready (c : StopCall) : Prop :=
  start_time (stop_metrics c) <> None /\
  in_double_range (successful_submissions (stop_metrics c)) /\
  in_double_range (failed_submissions (stop_metrics c)).

(** A float that is [+0.0], positive and finite, or [+inf]: neither a
    NaN, nor negative, nor [-0.0]. *)
Definition float_nonneg (f : float) : bool :=
  match f with
  | S754_zero false => true
  | S754_finite false _ _ => true
  | S754_infinity false => true
  | _ => false
  end.

(** The double [1.0] and the double [100.0]. *)
Definition float_one : float := S754_finite false 4503599627370496 (-52).
Definition float_hundred : float := S754_finite false 7036874417766400 (-46).

(** ** More sample inputs *)

Definition ok_with_id : Response :=
  mkResponse 200 (Some (JObject [("id"%string, JString "abc123")])).

Definition no_content : Response := mkResponse 204 None.

Definition not_found : Response := mkResponse 404 None.

Definition connection_failed : Response := mkResponse 0 None.

(** A run in which every classified response failed. *)
Definition failing_run : Metrics :=
  run (on_test_start Metrics_init sample_environment (clock_at 1000))
    [ SubmitJob sample_user service_unavailable;
      SubmitJob sample_user not_found ].

(** A run in which no classified response failed. *)
Definition clean_run : Metrics :=
  run (on_test_start Metrics_init sample_environment (clock_at 1000))
    [ SubmitJob sample_user accepted_abc123;
      SubmitJob sample_user too_many_requests ].

(** Splits a goal about [classify_response] into its six branches. *)
Ltac classify_cases r :=
  unfold metrics_of, report_of, classify_response;
  destruct (status_code r =? 202) eqn:?E202;
  [| destruct ((status_code r =? 200) || (status_code r =? 201)) eqn:?E20x;
     [| destruct (status_code r =? 429) eqn:?E429;
        [| destruct (status_code r >=? 500) eqn:?E5xx;
           [| destruct (status_code r >=? 400) eqn:?E4xx ]]]];
  cbn [fst snd].

(* ===================================================================== *)
(** * Binary64 rounding stays finite on the counters                      *)
(* ===================================================================== *)

Section Rounding.

Lemma fexp_eq (e : Z) :
  fexp Float64.prec Float64.emax e = Z.max (e - 53) (-1074).
Proof. reflexivity. Qed.

Lemma digits2_pos_size (p : positive) : digits2_pos p = Pos.size p.
Proof. induction p; simpl; congruence. Qed.

Lemma Zdigits2_log2 (m : Z) : 0 < m -> Zdigits2 m = Z.log2 m + 1.
Proof.
  destruct m as [|p|p]; try lia. intros _.
  destruct p as [p|p|]; simpl; rewrite ?digits2_pos_size; lia.
Qed.

Lemma Zdigits2_nonneg (m : Z) : 0 <= Zdigits2 m.
Proof. destruct m; simpl; lia. Qed.

Lemma Zdigits2_mono (a b : Z) : 0 <= a <= b -> Zdigits2 a <= Zdigits2 b.
Proof.
  intros [Ha Hab].
  destruct (Z.eq_dec a 0) as [->|Hne]; [apply Zdigits2_nonneg|].
  rewrite !Zdigits2_log2 by lia.
  pose proof (Z.log2_le_mono a b Hab). lia.
Qed.

Lemma Zdigits2_succ (m : Z) : 0 <= m -> Zdigits2 (m + 1) <= Zdigits2 m + 1.
Proof.
  intros Hm.
  destruct (Z.eq_dec m 0) as [->|Hne]; [simpl; lia|].
  rewrite !Zdigits2_log2 by lia.
  pose proof (Z.log2_succ_le m). unfold Z.succ in *. lia.
Qed.

Lemma Zdigits2_bound (z : Z) : in_double_range z -> Zdigits2 z <= 1023.
Proof.
  unfold in_double_range. intros Hz.
  destruct z as [|p|p]; simpl in *; try lia.
  - change (Zdigits2 (Zpos p) <= 1023). rewrite Zdigits2_log2 by lia.
    assert (Z.log2 (Zpos p) < 1023) by (apply Z.log2_lt_pow2; lia). lia.
  - change (Zdigits2 (Zpos p) <= 1023). rewrite Zdigits2_log2 by lia.
    assert (Z.log2 (Zpos p) < 1023) by (apply Z.log2_lt_pow2; lia). lia.
Qed.

Lemma shr_1_digits (mrs : shr_record) :
  Zdigits2 (shr_m (shr_1 mrs)) = Z.max 0 (Zdigits2 (shr_m mrs) - 1).
Proof.
  destruct mrs as [m r s].
  destruct m as [|[p|p|]|[p|p|]]; cbn [shr_1 shr_m Zdigits2 digits2_pos];
    rewrite ?Pos2Z.inj_succ; lia.
Qed.

Lemma shr_1_nonneg (mrs : shr_record) :
  0 <= shr_m mrs -> 0 <= shr_m (shr_1 mrs).
Proof.
  destruct mrs as [m r s].
  destruct m as [|[p|p|]|[p|p|]]; cbn [shr_1 shr_m]; lia.
Qed.

Lemma iter_shr_1_digits (p : positive) (mrs : shr_record) :
  Zdigits2 (shr_m (iter_pos shr_1 p mrs))
  = Z.max 0 (Zdigits2 (shr_m mrs) - Zpos p).
Proof.
  revert mrs. induction p as [p IH|p IH|]; intros mrs; simpl.
  - rewrite !IH, shr_1_digits. lia.
  - rewrite !IH. lia.
  - apply shr_1_digits.
Qed.

Lemma iter_shr_1_nonneg (p : positive) (mrs : shr_record) :
  0 <= shr_m mrs -> 0 <= shr_m (iter_pos shr_1 p mrs).
Proof.
  revert mrs. induction p as [p IH|p IH|]; intros mrs H; simpl.
  - apply IH, IH, shr_1_nonneg, H.
  - apply IH, IH, H.
  - apply shr_1_nonneg, H.
Qed.

Lemma shr_record_of_loc_m (m : Z) (l : location) :
  shr_m (shr_record_of_loc m l) = m.
Proof. destruct l as [|[ | | ]]; reflexivity. Qed.

(** One alignment step of the rounding: the exponent it ends on and
    the size of the mantissa it leaves. *)
Lemma shr_fexp_spec (m e : Z) (l : location) :
  0 <= m ->
  let '(mrs, e') := shr_fexp Float64.prec Float64.emax m e l in
  0 <= shr_m mrs /\
  e' = Z.max e (fexp Float64.prec Float64.emax (Zdigits2 m + e)) /\
  Zdigits2 (shr_m mrs) + e' <= Z.max (Zdigits2 m + e) e'.
Proof.
  intros Hm. unfold shr_fexp, shr.
  pose proof (Zdigits2_nonneg m) as Hd.
  destruct (fexp Float64.prec Float64.emax (Zdigits2 m + e) - e) as [|n|n] eqn:En.
  - rewrite shr_record_of_loc_m. repeat split; lia.
  - split; [apply iter_shr_1_nonneg; rewrite shr_record_of_loc_m; exact Hm|].
    rewrite iter_shr_1_digits, shr_record_of_loc_m. split; lia.
  - rewrite shr_record_of_loc_m. repeat split; lia.
Qed.

Lemma round_nearest_even_spec (m : Z) (l : location) :
  0 <= m ->
  0 <= round_nearest_even m l /\
  Zdigits2 (round_nearest_even m l) <= Zdigits2 m + 1.
Proof.
  intros Hm. pose proof (Zdigits2_succ m Hm).
  destruct l as [|[ | | ]]; simpl; try (split; lia).
  destruct (Z.even m); split; lia.
Qed.

(** Rounding a number below [2 ^ 1023] never overflows. *)
Lemma binary_round_aux_finite (sx : bool) (mx ex : Z) (lx : location) :
  0 <= mx -> ex <= 971 -> Zdigits2 mx + ex <= 1023 ->
  Float64.is_infinite (binary_round_aux Float64.prec Float64.emax sx mx ex lx)
  = false.
Proof.
  intros Hm He Hd. unfold binary_round_aux.
  pose proof (shr_fexp_spec mx ex lx Hm) as H1.
  destruct (shr_fexp Float64.prec Float64.emax mx ex lx) as [mrs1 e1].
  destruct H1 as (Hm1 & He1 & Hd1).
  pose proof (round_nearest_even_spec (shr_m mrs1) (loc_of_shr_record mrs1) Hm1)
    as [Hr Hrd].
  pose proof (shr_fexp_spec _ e1 loc_Exact Hr) as H2.
  destruct (shr_fexp Float64.prec Float64.emax
              (round_nearest_even (shr_m mrs1) (loc_of_shr_record mrs1))
              e1 loc_Exact) as [mrs2 e2].
  destruct H2 as (Hm2 & He2 & _).
  rewrite fexp_eq in He1, He2.
  destruct (shr_m mrs2) as [|p|p]; try reflexivity.
  assert (e2 <= 971) as Hle by lia.
  change (Float64.emax - Float64.prec) with 971.
  apply Z.leb_le in Hle. rewrite Hle. reflexivity.
Qed.

Lemma digits2_pos_iter_xO (mx d : positive) :
  digits2_pos (Pos.iter xO mx d) = (digits2_pos mx + d)%positive.
Proof.
  induction d as [|d IH] using Pos.peano_ind.
  - simpl. lia.
  - rewrite Pos.iter_succ. simpl. rewrite IH. lia.
Qed.

Lemma binary_round_finite (sx : bool) (mx : positive) :
  Zpos (digits2_pos mx) <= 1023 ->
  Float64.is_infinite (binary_round Float64.prec Float64.emax sx mx 0) = false.
Proof.
  intros Hd. unfold binary_round, shl_align.
  pose proof (fexp_eq (Zpos (digits2_pos mx) + 0)) as Hf.
  destruct (fexp Float64.prec Float64.emax (Zpos (digits2_pos mx) + 0) - 0)
    as [|d|d] eqn:Ed.
  - apply binary_round_aux_finite; simpl; lia.
  - apply binary_round_aux_finite; simpl; lia.
  - apply binary_round_aux_finite; [lia|lia|].
    cbn [Zdigits2]. rewrite digits2_pos_iter_xO. lia.
Qed.

Lemma nearest_finite (z : Z) :
  in_double_range z -> Float64.is_infinite (Float64.nearest z) = false.
Proof.
  intros Hz. pose proof (Zdigits2_bound z Hz) as Hd.
  destruct z as [|p|p]; [reflexivity| |];
    apply binary_round_finite; exact Hd.
Qed.

Lemma Zdigits2_shiftl (m s : Z) :
  0 < m -> 0 <= s -> Zdigits2 (Z.shiftl m s) = Zdigits2 m + s.
Proof.
  intros Hm Hs.
  assert (0 < Z.shiftl m s) as Hpos.
  { rewrite Z.shiftl_mul_pow2 by exact Hs.
    pose proof (Z.pow_pos_nonneg 2 s ltac:(lia) Hs). nia. }
  rewrite !Zdigits2_log2 by assumption.
  rewrite Z.log2_shiftl by assumption. lia.
Qed.

(** The quotient of two positive integers before rounding. *)
Lemma SFdiv_core_binary_spec (m1 m2 : positive) :
  let '(q, e', _) :=
    SFdiv_core_binary Float64.prec Float64.emax (Zpos m1) 0 (Zpos m2) 0 in
  0 <= q /\ e' <= 0 /\ Zdigits2 q + e' <= Zdigits2 (Zpos m1).
Proof.
  unfold SFdiv_core_binary.
  set (e' := Z.min _ (0 - 0)).
  assert (e' <= 0) as He by (subst e'; lia).
  set (m' := match 0 - 0 - e' with
             | Z0 => Zpos m1
             | Zpos _ => Z.shiftl (Zpos m1) (0 - 0 - e')
             | Zneg _ => 0
             end).
  assert (0 <= m' /\ Zdigits2 m' + e' <= Zdigits2 (Zpos m1)) as [Hm' Hd'].
  { subst m'. destruct (0 - 0 - e') as [|s|s] eqn:Es.
    - split; lia.
    - rewrite Zdigits2_shiftl by lia.
      split; [apply Z.shiftl_nonneg|]; lia.
    - lia. }
  destruct (Z.div_eucl m' (Zpos m2)) as [q r] eqn:Eq.
  assert (q = m' / Zpos m2) as -> by (unfold Z.div; rewrite Eq; reflexivity).
  assert (0 <= m' / Zpos m2) as Hq by (apply Z.div_pos; lia).
  assert (m' / Zpos m2 <= m') as Hle
    by (apply Z.div_le_upper_bound; [lia|nia]).
  pose proof (Zdigits2_mono (m' / Zpos m2) m' (conj Hq Hle)).
  repeat split; lia.
Qed.

Lemma div_exact_finite (a b : Z) :
  b <> 0 -> in_double_range a ->
  Float64.is_infinite (Float64.div (Float64.exact a) (Float64.exact b)) = false.
Proof.
  intros Hb Ha. pose proof (Zdigits2_bound a Ha) as Hd.
  destruct b as [|q|q]; [congruence| |];
    destruct a as [|p|p]; try reflexivity;
    unfold Float64.div, Float64.exact, SFdiv;
    pose proof (SFdiv_core_binary_spec p q) as H;
    destruct (SFdiv_core_binary Float64.prec Float64.emax (Zpos p) 0 (Zpos q) 0)
      as [[mz ez] lz];
    destruct H as (Hq & He & Hde);
    apply binary_round_aux_finite; simpl in Hd, Hde |- *; lia.
Qed.

End Rounding.

(* ===================================================================== *)
(** * Python arithmetic on the counters                                   *)
(* ===================================================================== *)

Lemma float_of_int_in_range (z : Z) :
  in_double_range z -> float_of_int z = Ok (Float64.nearest z).
Proof.
  intros Hz. unfold float_of_int. rewrite (nearest_finite z Hz). reflexivity.
Qed.

Lemma int_truediv_in_range (a b : Z) :
  b <> 0 -> in_double_range a ->
  int_truediv a b = Ok (Float64.div (Float64.exact a) (Float64.exact b)).
Proof.
  intros Hb Ha. unfold int_truediv.
  destruct (Z.eqb_spec b 0) as [E|_]; [contradiction|].
  rewrite (div_exact_finite a b Hb Ha). reflexivity.
Qed.

Lemma positive_float_nonzero (f : float) :
  Float64.gt_int f 0 = true -> Float64.is_zero f = false.
Proof. destruct f; simpl; try reflexivity. discriminate. Qed.

(* ===================================================================== *)
(** * Response classification                                             *)
(* ===================================================================== *)

Lemma record_job_id_counters (m : Metrics) (r : Response) :
  total_jobs_submitted (record_job_id m r) = total_jobs_submitted m /\
  successful_submissions (record_job_id m r) = successful_submissions m /\
  failed_submissions (record_job_id m r) = failed_submissions m /\
  rate_limited (record_job_id m r) = rate_limited m /\
  start_time (record_job_id m r) = start_time m.
Proof.
  unfold record_job_id.
  destruct (json_body r) as [[ | | | | | |d]|]; try (repeat split; reflexivity).
  destruct (truthy _); repeat split; reflexivity.
Qed.

Lemma classify_response_total (m : Metrics) (u : PartitionScalingUser) (r : Response) :
  total_jobs_submitted (metrics_of (classify_response m u r))
  = total_jobs_submitted m.
Proof.
  classify_cases r; try reflexivity.
  destruct (record_job_id_counters
              (set_successful_submissions (successful_submissions m + 1) m) r)
    as (H & _). exact H.
Qed.

Lemma classify_response_bucket (m : Metrics) (u : PartitionScalingUser) (r : Response) :
  one_bucket_bumped m (metrics_of (classify_response m u r)).
Proof.
  unfold one_bucket_bumped. classify_cases r.
  - destruct (record_job_id_counters
                (set_successful_submissions (successful_submissions m + 1) m) r)
      as (_ & Hs & Hf & Hr & _).
    left. rewrite Hs, Hf, Hr. repeat split; reflexivity.
  - left. repeat split; reflexivity.
  - right; right. repeat split; reflexivity.
  - right; left. repeat split; reflexivity.
  - right; left. repeat split; reflexivity.
  - right; left. repeat split; reflexivity.
Qed.

Lemma track_request_counters (m : Metrics) :
  total_jobs_submitted (track_request m) = total_jobs_submitted m + 1 /\
  successful_submissions (track_request m) = successful_submissions m /\
  failed_submissions (track_request m) = failed_submissions m /\
  rate_limited (track_request m) = rate_limited m.
Proof. repeat split; reflexivity. Qed.

Lemma submit_job_accounted (m : Metrics) (u : PartitionScalingUser) (r : Response) :
  accounted m -> accounted (metrics_of (submit_job m u r)).
Proof.
  unfold accounted, submit_job. intros H.
  rewrite classify_response_total.
  destruct (track_request_counters m) as (Ht & Hs & Hf & Hr).
  destruct (classify_response_bucket (track_request m) u r)
    as [(H1 & H2 & H3)|[(H1 & H2 & H3)|(H1 & H2 & H3)]];
    rewrite H1, H2, H3, Ht, Hs, Hf, Hr; lia.
Qed.

Lemma submit_job_total (m : Metrics) (u : PartitionScalingUser) (r : Response) :
  total_jobs_submitted (metrics_of (submit_job m u r))
  = total_jobs_submitted m + 1.
Proof.
  unfold submit_job. rewrite classify_response_total. reflexivity.
Qed.

Lemma states_after_accounted (rs : list Response) :
  forall m u, accounted m -> Forall accounted (states_after m u rs).
Proof.
  induction rs as [|r rs IH]; intros m u Hm; simpl.
  - constructor.
  - pose proof (submit_job_accounted m u r Hm) as Hstep.
    destruct (submit_job m u r) as [[m' u'] rep]. constructor.
    + exact Hstep.
    + apply IH. exact Hstep.
Qed.

Lemma submit_all_total (rs : list Response) :
  forall m u,
    total_jobs_submitted (fst (submit_all m u rs))
    = total_jobs_submitted m + Z.of_nat (List.length rs).
Proof.
  induction rs as [|r rs IH]; intros m u.
  - simpl. lia.
  - cbn [submit_all List.length]. pose proof (submit_job_total m u r) as Hstep.
    destruct (submit_job m u r) as [[m' u'] rep]. rewrite IH.
    unfold metrics_of in Hstep. cbn [fst] in Hstep. lia.
Qed.

Lemma Metrics_init_accounted : accounted Metrics_init.
Proof. reflexivity. Qed.

Lemma reset_accounted (m : Metrics) (now : float) : accounted (reset m now).
Proof. reflexivity. Qed.

(** C1: along every sequence of classified responses, from a fresh
    aggregate, from a reset one and from any state whose counters add
    up, the counters add up after each classification, and
    [total_jobs_submitted] has gone up by one per response; each
    submission first bumps [total_jobs_submitted] alone, and the branch
    on the status code then leaves it alone and bumps exactly one of
    [successful_submissions], [failed_submissions] and
    [rate_limited]. *)
Theorem submit_job_accounting (u : PartitionScalingUser) (rs : list Response) :
  Forall accounted (states_after Metrics_init u rs) /\
  (forall m0 now, Forall accounted (states_after (reset m0 now) u rs)) /\
  (forall m, accounted m -> Forall accounted (states_after m u rs)) /\
  (forall m,
     total_jobs_submitted (fst (submit_all m u rs))
     = total_jobs_submitted m + Z.of_nat (List.length rs)) /\
  (forall m1 u1 r,
     submit_job m1 u1 r = classify_response (track_request m1) u1 r /\
     total_jobs_submitted (track_request m1) = total_jobs_submitted m1 + 1 /\
     successful_submissions (track_request m1) = successful_submissions m1 /\
     failed_submissions (track_request m1) = failed_submissions m1 /\
     rate_limited (track_request m1) = rate_limited m1 /\
     total_jobs_submitted (metrics_of (classify_response m1 u1 r))
     = total_jobs_submitted m1 /\
     one_bucket_bumped m1 (metrics_of (classify_response m1 u1 r))).
Proof.
  split; [|split; [|split; [|split]]].
  - apply states_after_accounted, Metrics_init_accounted.
  - intros m0 now. apply states_after_accounted, reset_accounted.
  - intros m Hm. apply states_after_accounted, Hm.
  - intros m. apply submit_all_total.
  - intros m1 u1 r. split; [reflexivity|].
    destruct (track_request_counters m1) as (Ht & Hs & Hf & Hr).
    repeat (split; [assumption|]). split.
    + apply classify_response_total.
    + apply classify_response_bucket.
Qed.

Lemma submit_job_accounting_witness :
  Forall accounted
    (states_after sample_run sample_user
       [accepted_abc123; too_many_requests; service_unavailable]) /\
  total_jobs_submitted
    (fst (submit_all sample_run sample_user
            [accepted_abc123; too_many_requests; service_unavailable]))
  = 6.
Proof.
  destruct (submit_job_accounting sample_user
              [accepted_abc123; too_many_requests; service_unavailable])
    as (_ & _ & H1 & H2 & _).
  split.
  - apply H1. reflexivity.
  - rewrite H2. reflexivity.
Defined.

(* ===================================================================== *)
(** * Throughput and error rate                                           *)
(* ===================================================================== *)

Lemma throughput_since_in_range (m : Metrics) (st now : float) :
  py_gt_int (PyFloat (Float64.sub now st)) 0 = true ->
  in_double_range (successful_submissions m) ->
  throughput_since m st now
  = Ok (PyFloat (Float64.div (Float64.nearest (successful_submissions m))
                             (Float64.sub now st))).
Proof.
  intros Hpos Hr. unfold throughput_since. rewrite Hpos.
  unfold py_truediv, to_float. rewrite (float_of_int_in_range _ Hr).
  cbn [bind]. unfold float_truediv.
  rewrite (positive_float_nonzero _ Hpos). reflexivity.
Qed.

(** C2: the throughput is the integer 0 when [start_time] is unset, and
    when the elapsed time is not greater than zero; otherwise it is the
    quotient [successful_submissions / elapsed], which for a counter in
    the range of a double is the binary64 quotient of the counter by the
    elapsed seconds. *)
Theorem get_throughput_spec (m : Metrics) (now : float) :
  (start_time m = None -> get_throughput m now = Ok (PyInt 0)) /\
  (forall st, start_time m = Some st ->
     let elapsed := Float64.sub now st in
     (py_gt_int (PyFloat elapsed) 0 = false ->
      get_throughput m now = Ok (PyInt 0)) /\
     (py_gt_int (PyFloat elapsed) 0 = true ->
      get_throughput m now
      = py_truediv (PyInt (successful_submissions m)) (PyFloat elapsed) /\
      (in_double_range (successful_submissions m) ->
       get_throughput m now
       = Ok (PyFloat (Float64.div (Float64.nearest (successful_submissions m))
                                  elapsed))))).
Proof.
  unfold get_throughput. split.
  - intros ->. reflexivity.
  - intros st ->. cbv zeta. split; [|split].
    + intros H. unfold throughput_since. rewrite H. reflexivity.
    + unfold throughput_since. rewrite H. reflexivity.
    + intros Hr. apply throughput_since_in_range; assumption.
Qed.

Lemma get_throughput_spec_witness :
  get_throughput Metrics_init (clock_at 1010) = Ok (PyInt 0) /\
  get_throughput sample_run (clock_at 1000) = Ok (PyInt 0) /\
  get_throughput sample_run (clock_at 1010)
  = Ok (PyFloat (S754_finite false 7205759403792794 (-56))).
Proof.
  split; [|split].
  - apply (proj1 (get_throughput_spec Metrics_init (clock_at 1010))).
    reflexivity.
  - apply (proj2 (get_throughput_spec sample_run (clock_at 1000))
             (clock_at 1000) eq_refl).
    reflexivity.
  - destruct (proj2 (get_throughput_spec sample_run (clock_at 1010))
                (clock_at 1000) eq_refl) as [_ H].
    destruct (H eq_refl) as [_ Hq]. rewrite Hq.
    + reflexivity.
    + unfold in_double_range. simpl. lia.
Defined.

Lemma get_error_rate_unfold (m : Metrics) :
  0 < successful_submissions m + failed_submissions m ->
  get_error_rate m
  = (q <- py_truediv (PyInt (failed_submissions m))
            (PyInt (successful_submissions m + failed_submissions m)) ;;
     py_mul q (PyInt 100)).
Proof.
  intros Hpos. unfold get_error_rate. cbn [py_gt_int].
  assert ((successful_submissions m + failed_submissions m >? 0) = true) as ->
    by (apply Z.gtb_lt; lia).
  reflexivity.
Qed.

Lemma get_error_rate_in_range (m : Metrics) :
  0 < successful_submissions m + failed_submissions m ->
  in_double_range (failed_submissions m) ->
  get_error_rate m
  = Ok (PyFloat
          (Float64.mul
             (Float64.div
                (Float64.exact (failed_submissions m))
                (Float64.exact (successful_submissions m + failed_submissions m)))
             (Float64.nearest 100))).
Proof.
  intros Hpos Hr. rewrite (get_error_rate_unfold m Hpos).
  assert (successful_submissions m + failed_submissions m <> 0) as Hne by lia.
  unfold py_truediv. rewrite (int_truediv_in_range _ _ Hne Hr).
  reflexivity.
Qed.

(** C3: for counters that are counts, the error rate is the integer 0
    when [successful_submissions + failed_submissions] is 0, and
    otherwise [failed_submissions / (successful_submissions +
    failed_submissions) * 100], the correctly rounded quotient times one
    hundred; two states with the same [successful_submissions] and
    [failed_submissions] have the same error rate, whatever their
    [rate_limited]. *)
Theorem get_error_rate_spec (m : Metrics) :
  0 <= successful_submissions m -> 0 <= failed_submissions m ->
  let total := successful_submissions m + failed_submissions m in
  (total = 0 -> get_error_rate m = Ok (PyInt 0)) /\
  (total <> 0 ->
   get_error_rate m
   = (q <- py_truediv (PyInt (failed_submissions m)) (PyInt total) ;;
      py_mul q (PyInt 100)) /\
   (in_double_range (failed_submissions m) ->
    get_error_rate m
    = Ok (PyFloat
            (Float64.mul
               (Float64.div (Float64.exact (failed_submissions m))
                            (Float64.exact total))
               (Float64.nearest 100))))) /\
  (forall m',
     successful_submissions m' = successful_submissions m ->
     failed_submissions m' = failed_submissions m ->
     get_error_rate m' = get_error_rate m).
Proof.
  intros Hs Hf total. split; [|split].
  - intros H0. unfold get_error_rate. fold total. rewrite H0. reflexivity.
  - intros Hne. assert (0 < total) as Hpos by (subst total; lia). split.
    + apply get_error_rate_unfold. exact Hpos.
    + intros Hr. apply get_error_rate_in_range; assumption.
  - intros m' Es Ef. unfold get_error_rate. rewrite Es, Ef. reflexivity.
Qed.

Lemma get_error_rate_spec_witness :
  get_error_rate Metrics_init = Ok (PyInt 0) /\
  get_error_rate sample_run = Ok (PyFloat (S754_finite false 7036874417766400 (-47))) /\
  get_error_rate (set_rate_limited 40 sample_run) = get_error_rate sample_run.
Proof.
  split; [|split].
  - apply (get_error_rate_spec Metrics_init); simpl; lia.
  - assert (0 <= successful_submissions sample_run) as Hs by (simpl; lia).
    assert (0 <= failed_submissions sample_run) as Hf by (simpl; lia).
    destruct (get_error_rate_spec sample_run Hs Hf) as (_ & H & _).
    destruct H as [_ Hq]; [simpl; lia|].
    rewrite Hq; [reflexivity|]. unfold in_double_range. simpl. lia.
  - assert (0 <= successful_submissions sample_run) as Hs by (simpl; lia).
    assert (0 <= failed_submissions sample_run) as Hf by (simpl; lia).
    destruct (get_error_rate_spec sample_run Hs Hf) as (_ & _ & H).
    apply H; reflexivity.
Defined.

(* ===================================================================== *)
(** * Accepted responses and job identifiers                              *)
(* ===================================================================== *)

Lemma submit_job_accepted (m : Metrics) (u : PartitionScalingUser) (r : Response) :
  status_code r = 202 ->
  submit_job m u r
  = (record_job_id
       (set_successful_submissions
          (successful_submissions (track_request m) + 1) (track_request m)) r,
     bump_jobs_submitted u, Success).
Proof.
  intros H. unfold submit_job, classify_response. rewrite H. reflexivity.
Qed.

Lemma record_job_id_object (m : Metrics) (r : Response) (d : list (string * json)) :
  json_body r = Some (JObject d) ->
  job_ids (record_job_id m r)
  = if truthy (py_or (dict_get d "id") (dict_get d "jobId"))
    then job_ids m ++ [py_or (dict_get d "id") (dict_get d "jobId")]
    else job_ids m.
Proof.
  intros H. unfold record_job_id. rewrite H.
  destruct (truthy _); reflexivity.
Qed.

Lemma record_job_id_not_object (m : Metrics) (r : Response) :
  (forall d, json_body r <> Some (JObject d)) ->
  job_ids (record_job_id m r) = job_ids m.
Proof.
  intros H. unfold record_job_id.
  destruct (json_body r) as [[ | | | | | |d]|]; try reflexivity.
  exfalso. apply (H d). reflexivity.
Qed.

Lemma py_or_truthy (a b : json) :
  truthy (py_or a b) = truthy a || truthy b.
Proof. unfold py_or. destruct (truthy a) eqn:E; [exact E|reflexivity]. Qed.

Lemma dict_get_absent (d : list (string * json)) (k : string) :
  dict_lookup d k = None -> truthy (dict_get d k) = false.
Proof. intros H. unfold dict_get. rewrite H. reflexivity. Qed.

(** C4, as the specification states it, fails: an accepted response
    whose body is [{"id": 0}] has an [id] field, and nothing is appended
    to [job_ids]. *)
Lemma accepted_zero_id_not_recorded :
  ~ accepted_as_specified Metrics_init sample_user accepted_zero_id.
Proof.
  intros H. destruct (H eq_refl) as (_ & _ & Hid & _).
  destruct (Hid [("id"%string, JInt 0)] eq_refl) as (v & _ & Hv).
  - left. discriminate.
  - discriminate Hv.
Qed.

(** C4, amended: a response with status 202 bumps
    [successful_submissions] alone among the outcome counters and is
    reported as a success, whatever its body; when the decoded body is
    an object in which [id] or [jobId] is truthy, the value of [id] if
    truthy and else that of [jobId] is appended to [job_ids]; when both
    are falsy or absent, when the decoded body is no object, and when
    decoding raises, [job_ids] is left as it was. *)
Theorem accepted_response_spec (m : Metrics) (u : PartitionScalingUser) (r : Response) :
  status_code r = 202 ->
  let m' := metrics_of (submit_job m u r) in
  successful_submissions m' = successful_submissions m + 1 /\
  failed_submissions m' = failed_submissions m /\
  rate_limited m' = rate_limited m /\
  report_of (submit_job m u r) = Success /\
  (forall d, json_body r = Some (JObject d) ->
     truthy (dict_get d "id") = true \/ truthy (dict_get d "jobId") = true ->
     truthy (py_or (dict_get d "id") (dict_get d "jobId")) = true /\
     job_ids m' = job_ids m ++ [py_or (dict_get d "id") (dict_get d "jobId")]) /\
  (forall d, json_body r = Some (JObject d) ->
     truthy (dict_get d "id") = false -> truthy (dict_get d "jobId") = false ->
     job_ids m' = job_ids m) /\
  ((forall d, json_body r <> Some (JObject d)) -> job_ids m' = job_ids m) /\
  (json_body r = None -> job_ids m' = job_ids m).
Proof.
  intros H m'. subst m'. rewrite (submit_job_accepted m u r H).
  unfold metrics_of, report_of. cbn [fst snd].
  set (m1 := set_successful_submissions _ _).
  destruct (record_job_id_counters m1 r) as (_ & Hs & Hf & Hr & _).
  rewrite Hs, Hf, Hr.
  repeat (split; [reflexivity|]).
  split; [|split; [|split]].
  - intros d Hd Ht. rewrite (record_job_id_object m1 r d Hd).
    assert (truthy (py_or (dict_get d "id") (dict_get d "jobId")) = true) as E.
    { rewrite py_or_truthy. destruct Ht as [-> | ->];
        [reflexivity|apply orb_true_r]. }
    rewrite E. split; reflexivity.
  - intros d Hd Hi Hj. rewrite (record_job_id_object m1 r d Hd).
    rewrite py_or_truthy, Hi, Hj. reflexivity.
  - intros Hn. apply (record_job_id_not_object m1 r Hn).
  - intros Hn. apply (record_job_id_not_object m1 r).
    intros d. rewrite Hn. discriminate.
Qed.

Lemma accepted_response_spec_witness :
  successful_submissions (metrics_of (submit_job Metrics_init sample_user accepted_abc123))
  = 1 /\
  report_of (submit_job Metrics_init sample_user accepted_abc123) = Success /\
  job_ids (metrics_of (submit_job Metrics_init sample_user accepted_abc123))
  = [JString "abc123"] /\
  successful_submissions
    (metrics_of (submit_job Metrics_init sample_user accepted_unparseable)) = 1 /\
  job_ids (metrics_of (submit_job Metrics_init sample_user accepted_unparseable))
  = [] /\
  job_ids (metrics_of (submit_job Metrics_init sample_user accepted_empty_id))
  = [].
Proof.
  destruct (accepted_response_spec Metrics_init sample_user accepted_abc123 eq_refl)
    as (Hs & _ & _ & Hrep & Hid & _).
  destruct (Hid [("id"%string, JString "abc123")] eq_refl (or_introl eq_refl))
    as [_ Hids].
  destruct (accepted_response_spec Metrics_init sample_user accepted_unparseable eq_refl)
    as (Hs' & _ & _ & _ & _ & _ & _ & Hnone).
  destruct (accepted_response_spec Metrics_init sample_user accepted_empty_id eq_refl)
    as (_ & _ & _ & _ & _ & Hfalsy & _).
  exact (conj Hs (conj Hrep (conj Hids (conj Hs' (conj (Hnone eq_refl)
           (Hfalsy [("id"%string, JString "")] eq_refl eq_refl eq_refl)))))).
Defined.

(** C9: on a response with status 202 whose decoded body is an object,
    a truthy [id] is the value appended to [job_ids], whether or not
    there is a [jobId]; when [id] is absent or falsy, a truthy [jobId]
    is the value appended; when that one is absent or falsy too,
    nothing is appended.  An absent field, [null] and the empty string
    are falsy. *)
Theorem job_id_precedence (m : Metrics) (u : PartitionScalingUser) (r : Response)
    (d : list (string * json)) :
  status_code r = 202 ->
  json_body r = Some (JObject d) ->
  let m' := metrics_of (submit_job m u r) in
  (truthy (dict_get d "id") = true ->
   job_ids m' = job_ids m ++ [dict_get d "id"]) /\
  (truthy (dict_get d "id") = false ->
   truthy (dict_get d "jobId") = true ->
   job_ids m' = job_ids m ++ [dict_get d "jobId"]) /\
  (truthy (dict_get d "id") = false ->
   truthy (dict_get d "jobId") = false ->
   job_ids m' = job_ids m) /\
  (forall k, dict_lookup d k = None -> truthy (dict_get d k) = false) /\
  truthy JNull = false /\
  truthy (JString "") = false.
Proof.
  intros H Hd m'. subst m'. rewrite (submit_job_accepted m u r H).
  unfold metrics_of. cbn [fst].
  rewrite (record_job_id_object _ r d Hd). unfold py_or. cbn [job_ids set_successful_submissions track_request set_total_jobs_submitted].
  split; [|split; [|split; [|split; [|split]]]].
  - intros Hi. rewrite Hi, Hi. reflexivity.
  - intros Hi Hj. rewrite Hi, Hj. reflexivity.
  - intros Hi Hj. rewrite Hi, Hj. reflexivity.
  - intros k. apply dict_get_absent.
  - reflexivity.
  - reflexivity.
Qed.

Lemma job_id_precedence_witness :
  job_ids (metrics_of (submit_job Metrics_init sample_user accepted_both_ids))
  = [JString "j-1"] /\
  job_ids (metrics_of (submit_job Metrics_init sample_user accepted_null_id))
  = [JString "j-2"] /\
  job_ids (metrics_of (submit_job Metrics_init sample_user accepted_falsy_ids))
  = [].
Proof.
  split; [|split].
  - apply (job_id_precedence Metrics_init sample_user accepted_both_ids
             _ eq_refl eq_refl).
    reflexivity.
  - apply (job_id_precedence Metrics_init sample_user accepted_null_id
             _ eq_refl eq_refl); reflexivity.
  - apply (job_id_precedence Metrics_init sample_user accepted_falsy_ids
             _ eq_refl eq_refl); reflexivity.
Defined.

(* ===================================================================== *)
(** * Rate limiting and server errors                                     *)
(* ===================================================================== *)

(** C5: a response with status 429 bumps [rate_limited] by one, is
    reported to the load framework as a success, and leaves
    [successful_submissions] and [failed_submissions] as they were. *)
Theorem rate_limited_response_spec (m : Metrics) (u : PartitionScalingUser)
    (r : Response) :
  status_code r = 429 ->
  let m' := metrics_of (submit_job m u r) in
  rate_limited m' = rate_limited m + 1 /\
  report_of (submit_job m u r) = Success /\
  successful_submissions m' = successful_submissions m /\
  failed_submissions m' = failed_submissions m /\
  job_ids m' = job_ids m.
Proof.
  intros H. unfold submit_job, classify_response. rewrite H.
  repeat split; reflexivity.
Qed.

Lemma rate_limited_response_spec_witness :
  rate_limited (metrics_of (submit_job sample_run sample_user too_many_requests))
  = 2 /\
  report_of (submit_job sample_run sample_user too_many_requests) = Success /\
  successful_submissions
    (metrics_of (submit_job sample_run sample_user too_many_requests)) = 1 /\
  failed_submissions
    (metrics_of (submit_job sample_run sample_user too_many_requests)) = 1.
Proof.
  destruct (rate_limited_response_spec sample_run sample_user too_many_requests
              eq_refl) as (Hr & Hrep & Hs & Hf & _).
  exact (conj Hr (conj Hrep (conj Hs Hf))).
Defined.

Lemma occurs_in_suffix (pre s : string) : occurs_in s (pre ++ s).
Proof.
  exists pre, EmptyString. f_equal.
  induction s as [|c s IH]; simpl; [reflexivity|]. f_equal. exact IH.
Qed.

Lemma occurs_in_prefix (s post : string) : occurs_in s (s ++ post).
Proof. exists EmptyString, post. reflexivity. Qed.

Lemma string_app_assoc (a b c : string) :
  ((a ++ b) ++ c)%string = (a ++ (b ++ c))%string.
Proof. induction a as [|x a IH]; simpl; [reflexivity|]. f_equal. exact IH. Qed.

(** C6: a response with a status of 500 or more, 503 among them, bumps
    [failed_submissions] by one and is reported as a failure; the
    message is [Server error] followed by the status code in decimal,
    so it carries the wording of the server-error class and the actual
    code. *)
Theorem server_error_response_spec (m : Metrics) (u : PartitionScalingUser)
    (r : Response) :
  500 <= status_code r ->
  let m' := metrics_of (submit_job m u r) in
  let message := ("Server error " ++ py_str_int (status_code r))%string in
  failed_submissions m' = failed_submissions m + 1 /\
  successful_submissions m' = successful_submissions m /\
  rate_limited m' = rate_limited m /\
  report_of (submit_job m u r) = Failure message /\
  occurs_in "Server error" message /\
  occurs_in (py_str_int (status_code r)) message.
Proof.
  intros H m' message. subst m'.
  unfold submit_job, classify_response.
  assert ((status_code r =? 202) = false) as -> by lia.
  assert ((status_code r =? 200) = false) as -> by lia.
  assert ((status_code r =? 201) = false) as -> by lia.
  assert ((status_code r =? 429) = false) as -> by lia.
  assert ((status_code r >=? 500) = true) as -> by lia.
  cbn [orb]. unfold metrics_of, report_of. cbn [fst snd].
  repeat (split; [reflexivity|]). split.
  - subst message.
    change "Server error "%string with ("Server error" ++ " ")%string.
    rewrite string_app_assoc. apply occurs_in_prefix.
  - apply occurs_in_suffix.
Qed.

Lemma server_error_response_spec_witness :
  failed_submissions
    (metrics_of (submit_job sample_run sample_user service_unavailable)) = 2 /\
  report_of (submit_job sample_run sample_user service_unavailable)
  = Failure "Server error 503".
Proof.
  assert (500 <= status_code service_unavailable) as H by (simpl; lia).
  destruct (server_error_response_spec sample_run sample_user service_unavailable H)
    as (Hf & _ & _ & Hrep & _).
  exact (conj Hf Hrep).
Defined.

(* ===================================================================== *)
(** * Reset                                                               *)
(* ===================================================================== *)

(** C7: [reset] sets [total_jobs_submitted], [successful_submissions],
    [failed_submissions] and [rate_limited] to 0 and empties [job_ids],
    and leaves [partition_count] and [worker_count] as they were. *)
Theorem reset_spec (m : Metrics) (now : float) :
  total_jobs_submitted (reset m now) = 0 /\
  successful_submissions (reset m now) = 0 /\
  failed_submissions (reset m now) = 0 /\
  rate_limited (reset m now) = 0 /\
  job_ids (reset m now) = [] /\
  partition_count (reset m now) = partition_count m /\
  worker_count (reset m now) = worker_count m.
Proof. repeat split; reflexivity. Qed.

(* ===================================================================== *)
(** * Run stop and the results file                                       *)
(* ===================================================================== *)

Lemma get_throughput_returns (m : Metrics) (now : float) :
  in_double_range (successful_submissions m) ->
  exists throughput, get_throughput m now = Ok throughput.
Proof.
  intros Hr. unfold get_throughput.
  destruct (start_time m) as [st|]; [|eexists; reflexivity].
  destruct (py_gt_int (PyFloat (Float64.sub now st)) 0) eqn:E.
  - rewrite (throughput_since_in_range m st now E Hr). eexists; reflexivity.
  - unfold throughput_since. rewrite E. eexists; reflexivity.
Qed.

Lemma get_error_rate_returns (m : Metrics) :
  in_double_range (failed_submissions m) ->
  exists error_rate, get_error_rate m = Ok error_rate.
Proof.
  intros Hr.
  destruct (Z_lt_le_dec 0 (successful_submissions m + failed_submissions m))
    as [Hpos|Hle].
  - rewrite (get_error_rate_in_range m Hpos Hr). eexists; reflexivity.
  - unfold get_error_rate. cbn [py_gt_int].
    assert ((successful_submissions m + failed_submissions m >? 0) = false)
      as -> by lia.
    eexists; reflexivity.
Qed.

Lemma data_row_length (round_float : float -> Z -> float) (m : Metrics)
    (stamp : string) (error_rate duration throughput avg : pynum) :
  List.length (data_row round_float m stamp error_rate duration throughput avg)
  = 11%nat.
Proof. reflexivity. Qed.

(** Why the range matters: a counter of [2 ^ 1024] is too large for a
    double, the division raises, and the exception leaves the hook
    before the file is opened. *)
Example huge_counter_raises :
  get_throughput (set_successful_submissions (2 ^ 1024) sample_run) (clock_at 1010)
  = Raise OverflowError /\
  on_test_stop round_identity (set_successful_submissions (2 ^ 1024) sample_run)
    sample_environment (clock_at 1010) (clock_at 1010) "2026-01-01T00:00:10" None
  = Raise OverflowError.
Proof. split; vm_compute; reflexivity. Qed.

(** C8, as the specification states it, fails: when run stop comes
    before [start_time] was ever set, the hook returns early; no record
    is written and no file is made. *)
Lemma stop_before_start_writes_nothing :
  ~ stop_as_specified round_identity Metrics_init sample_environment
      (clock_at 1010) (clock_at 1010) "2026-01-01T00:00:00" None.
Proof.
  intros (outcome & row & _ & H). discriminate H.
Qed.

(** C8, amended: at run stop with [start_time] set and the counters in
    the range of a double, the hook ends with the results file holding
    what it held before, then the header if and only if the path was no
    file, then exactly one record of the run; the header and the record
    have eleven fields each.  With [start_time] unset the hook returns
    early and leaves the path as it was. *)
Theorem on_test_stop_spec (round_float : float -> Z -> float) (m : Metrics)
    (env : Environment) (now1 now2 : float) (stamp : string) (file : csv_path) :
  (start_time m = None ->
   on_test_stop round_float m env now1 now2 stamp file = Ok (NoTestData, file)) /\
  (forall st, start_time m = Some st ->
     in_double_range (successful_submissions m) ->
     in_double_range (failed_submissions m) ->
     exists error_rate throughput,
       get_error_rate m = Ok error_rate /\
       get_throughput m now2 = Ok throughput /\
       let avg :=
         if num_requests (stats_total env) >? 0
         then avg_response_time (stats_total env)
         else PyInt 0 in
       let row :=
         data_row round_float m stamp error_rate
           (PyFloat (Float64.sub now1 st)) throughput avg in
       List.length row = 11%nat /\
       List.length csv_header = 11%nat /\
       on_test_stop round_float m env now1 now2 stamp file
       = Ok (ResultsSaved,
             Some (match file with
                   | Some rows => rows ++ [row]
                   | None => [csv_header; row]
                   end))).
Proof.
  split.
  - intros H. unfold on_test_stop. rewrite H. reflexivity.
  - intros st Hst Hs Hf.
    destruct (get_error_rate_returns m Hf) as [error_rate He].
    destruct (get_throughput_returns m now2 Hs) as [throughput Ht].
    exists error_rate, throughput.
    split; [exact He|]. split; [exact Ht|]. cbv zeta.
    split; [apply data_row_length|]. split; [reflexivity|].
    unfold on_test_stop. rewrite Hst, Ht, He. cbn [bind].
    unfold save_results. destruct file as [rows|]; reflexivity.
Qed.

Lemma on_test_stop_spec_witness :
  on_test_stop round_identity Metrics_init sample_environment
    (clock_at 1010) (clock_at 1011) "2026-01-01T00:00:10" None
  = Ok (NoTestData, None) /\
  on_test_stop round_identity sample_run sample_environment
    (clock_at 1010) (clock_at 1011) "2026-01-01T00:00:10" None
  = Ok (ResultsSaved,
        Some [csv_header; sample_record "2026-01-01T00:00:10" 10 11]) /\
  on_test_stop round_identity sample_run sample_environment
    (clock_at 1020) (clock_at 1021) "2026-01-01T00:00:20"
    (Some [csv_header; sample_record "2026-01-01T00:00:10" 10 11])
  = Ok (ResultsSaved,
        Some [csv_header;
              sample_record "2026-01-01T00:00:10" 10 11;
              sample_record "2026-01-01T00:00:20" 20 21]).
Proof.
  assert (in_double_range (successful_submissions sample_run)) as Hs
    by (unfold in_double_range; simpl; lia).
  assert (in_double_range (failed_submissions sample_run)) as Hf
    by (unfold in_double_range; simpl; lia).
  split; [|split].
  - apply (proj1 (on_test_stop_spec round_identity Metrics_init sample_environment
                    (clock_at 1010) (clock_at 1011) "2026-01-01T00:00:10" None)).
    reflexivity.
  - destruct (proj2 (on_test_stop_spec round_identity sample_run
                       sample_environment (clock_at 1010) (clock_at 1011)
                       "2026-01-01T00:00:10" None)
                (clock_at 1000) eq_refl Hs Hf)
      as (e & t & He & Ht & _ & _ & H).
    vm_compute in He, Ht. injection He as <-. injection Ht as <-.
    rewrite H. reflexivity.
  - destruct (proj2 (on_test_stop_spec round_identity sample_run
                       sample_environment (clock_at 1020) (clock_at 1021)
                       "2026-01-01T00:00:20"
                       (Some [csv_header;
                              sample_record "2026-01-01T00:00:10" 10 11]))
                (clock_at 1000) eq_refl Hs Hf)
      as (e & t & He & Ht & _ & _ & H).
    vm_compute in He, Ht. injection He as <-. injection Ht as <-.
    rewrite H. reflexivity.
Defined.

(* ===================================================================== *)
(** * Once started, always started                                        *)
(* ===================================================================== *)

Lemma reset_start_time (m : Metrics) (now : float) :
  start_time (reset m now) = Some now.
Proof. reflexivity. Qed.

Lemma submit_job_start_time (m : Metrics) (u : PartitionScalingUser) (r : Response) :
  start_time (metrics_of (submit_job m u r)) = start_time m.
Proof.
  unfold submit_job. classify_cases r; try reflexivity.
  destruct (record_job_id_counters
              (set_successful_submissions
                 (successful_submissions (track_request m) + 1) (track_request m)) r)
    as (_ & _ & _ & _ & H).
  exact H.
Qed.

Lemma step_keeps_start_time (m : Metrics) (e : Event) :
  start_time m <> None -> start_time (step m e) <> None.
Proof.
  intros H. destruct e as [self_id now|u r|env now]; cbn [step].
  - unfold on_start. destruct (start_time m) eqn:E; cbn [fst].
    + rewrite E. discriminate.
    + contradiction.
  - rewrite submit_job_start_time. exact H.
  - unfold on_test_start. rewrite reset_start_time. discriminate.
Qed.

Lemma run_keeps_start_time (evs : list Event) :
  forall m, start_time m <> None -> start_time (run m evs) <> None.
Proof.
  unfold run. induction evs as [|e evs IH]; intros m H; cbn [fold_left].
  - exact H.
  - apply IH, step_keeps_start_time, H.
Qed.

(** C10: [reset] sets [start_time] to the reading of the clock; so in
    every run that went through run start, whatever users started,
    responses were classified and restarts happened since,
    [start_time] is set: [get_throughput] is past its guard on
    [start_time], and the run-stop hook never ends on its early
    return. *)
Theorem started_run_has_start_time (m0 : Metrics) (env0 : Environment)
    (now0 : float) (evs : list Event) :
  start_time (reset m0 now0) = Some now0 /\
  exists st,
    start_time (run (on_test_start m0 env0 now0) evs) = Some st /\
    (forall now,
       get_throughput (run (on_test_start m0 env0 now0) evs) now
       = throughput_since (run (on_test_start m0 env0 now0) evs) st now) /\
    (forall round_float env now1 now2 stamp file file',
       on_test_stop round_float (run (on_test_start m0 env0 now0) evs)
         env now1 now2 stamp file
       <> Ok (NoTestData, file')).
Proof.
  split; [reflexivity|].
  assert (start_time (run (on_test_start m0 env0 now0) evs) <> None) as H.
  { apply run_keeps_start_time. unfold on_test_start.
    rewrite reset_start_time. discriminate. }
  destruct (start_time (run (on_test_start m0 env0 now0) evs)) as [st|] eqn:E;
    [|contradiction].
  exists st. split; [reflexivity|]. split.
  - intros now. unfold get_throughput. rewrite E. reflexivity.
  - intros round_float env now1 now2 stamp file file'.
    unfold on_test_stop. rewrite E.
    destruct (get_throughput _ now2) as [t|ex]; cbn [bind]; [|discriminate].
    destruct (get_error_rate _) as [er|ex]; cbn [bind]; discriminate.
Qed.

(** Every state a process can be in has its counters adding up. *)
Lemma reachable_accounted (m : Metrics) : reachable m -> accounted m.
Proof.
  induction 1 as [|m e _ IH].
  - reflexivity.
  - destruct e as [self_id now|u r|env now]; cbn [step].
    + unfold on_start. destruct (start_time m); exact IH.
    + apply submit_job_accounted. exact IH.
    + reflexivity.
Qed.

(** Every state of a run is one a process can be in. *)
Lemma run_reachable (evs : list Event) :
  forall m, reachable m -> reachable (run m evs).
Proof.
  unfold run. induction evs as [|e evs IH]; intros m H; cbn [fold_left].
  - exact H.
  - apply IH. constructor. exact H.
Qed.

(** Every state a process can be in has counters that are counts. *)
Lemma reachable_counters_nonneg (m : Metrics) :
  reachable m -> counters_nonneg m.
Proof.
  unfold counters_nonneg. induction 1 as [|m e _ IH].
  - simpl. lia.
  - destruct e as [self_id now|u r|env now]; cbn [step].
    + unfold on_start. destruct (start_time m); exact IH.
    + pose proof (submit_job_total m u r) as Ht.
      destruct (classify_response_bucket (track_request m) u r)
        as [(H1 & H2 & H3)|[(H1 & H2 & H3)|(H1 & H2 & H3)]];
        fold (submit_job m u r) in H1, H2, H3;
        destruct (track_request_counters m) as (_ & Hs & Hf & Hr);
        rewrite Ht, H1, H2, H3, Hs, Hf, Hr; lia.
    + simpl. lia.
Qed.

(* ===================================================================== *)
(** * The whole classification table                                      *)
(* ===================================================================== *)

Lemma classify_response_job_ids_other (m : Metrics) (u : PartitionScalingUser)
    (r : Response) :
  status_code r <> 202 ->
  job_ids (metrics_of (classify_response m u r)) = job_ids m.
Proof.
  intros H. classify_cases r; try reflexivity.
  apply Z.eqb_eq in E202. contradiction.
Qed.

(** X1: the attempt is reported to the load framework as a success
    exactly for the status codes 200, 201, 202 and 429; and
    [failed_submissions] goes up exactly when a failure is reported. *)
Theorem success_iff_expected_status (m : Metrics) (u : PartitionScalingUser)
    (r : Response) :
  (report_of (submit_job m u r) = Success <->
   status_code r = 200 \/ status_code r = 201 \/ status_code r = 202 \/
   status_code r = 429) /\
  (failed_submissions (metrics_of (submit_job m u r))
   = failed_submissions m + 1 <->
   report_of (submit_job m u r) <> Success).
Proof.
  unfold submit_job. classify_cases r.
  - pose proof (record_job_id_counters
                  (set_successful_submissions
                     (successful_submissions (track_request m) + 1)
                     (track_request m)) r) as (_ & _ & Hf & _).
    rewrite Hf. cbn. split; split; intros H; try reflexivity; try lia.
    contradiction.
  - cbn. apply orb_true_iff in E20x.
    split; split; intros H; try reflexivity; try lia. contradiction.
  - cbn. split; split; intros H; try reflexivity; try lia. contradiction.
  - cbn. apply orb_false_iff in E20x.
    split; split; intros H; try discriminate; try lia; try reflexivity.
  - cbn. apply orb_false_iff in E20x.
    split; split; intros H; try discriminate; try lia; try reflexivity.
  - cbn. apply orb_false_iff in E20x.
    split; split; intros H; try discriminate; try lia; try reflexivity.
Qed.

Lemma success_iff_expected_status_witness :
  report_of (submit_job sample_run sample_user ok_with_id) = Success /\
  report_of (submit_job sample_run sample_user no_content) <> Success /\
  failed_submissions (metrics_of (submit_job sample_run sample_user no_content))
  = 2.
Proof.
  split; [|split].
  - apply (proj1 (success_iff_expected_status sample_run sample_user ok_with_id)).
    left. reflexivity.
  - intros H.
    apply (proj1 (success_iff_expected_status sample_run sample_user no_content))
      in H.
    simpl in H. lia.
  - apply (proj2 (success_iff_expected_status sample_run sample_user no_content)).
    discriminate.
Defined.

(** X2: a status from 400 to 499 other than 429 is reported as a
    failure whose message is [Client error] and the code; a status
    below 400 other than 200, 201 and 202 (204, a redirect, the 0 of a
    failed connection) is reported as a failure whose message is
    [Unexpected status] and the code.  Either way
    [failed_submissions] alone goes up among the outcome counters and
    [job_ids] is left alone. *)
Theorem client_error_and_unexpected_status (m : Metrics) (u : PartitionScalingUser)
    (r : Response) :
  status_code r < 500 ->
  status_code r <> 429 ->
  status_code r <> 200 -> status_code r <> 201 -> status_code r <> 202 ->
  let m' := metrics_of (submit_job m u r) in
  report_of (submit_job m u r)
  = Failure ((if 400 <=? status_code r
              then "Client error " else "Unexpected status ")
             ++ py_str_int (status_code r)) /\
  failed_submissions m' = failed_submissions m + 1 /\
  successful_submissions m' = successful_submissions m /\
  rate_limited m' = rate_limited m /\
  job_ids m' = job_ids m.
Proof.
  intros H5 H429 H200 H201 H202 m'. subst m'.
  unfold submit_job, classify_response, metrics_of, report_of.
  assert ((status_code r =? 202) = false) as -> by lia.
  assert ((status_code r =? 200) = false) as -> by lia.
  assert ((status_code r =? 201) = false) as -> by lia.
  assert ((status_code r =? 429) = false) as -> by lia.
  assert ((status_code r >=? 500) = false) as -> by lia.
  cbn [orb].
  destruct (Z.leb_spec 400 (status_code r)) as [Hge|Hlt].
  - assert ((status_code r >=? 400) = true) as -> by lia.
    repeat split; reflexivity.
  - assert ((status_code r >=? 400) = false) as -> by lia.
    repeat split; reflexivity.
Qed.

Lemma client_error_and_unexpected_status_witness :
  report_of (submit_job sample_run sample_user not_found)
  = Failure "Client error 404" /\
  report_of (submit_job sample_run sample_user no_content)
  = Failure "Unexpected status 204" /\
  report_of (submit_job sample_run sample_user connection_failed)
  = Failure "Unexpected status 0".
Proof.
  split; [|split].
  - apply (client_error_and_unexpected_status sample_run sample_user not_found);
      simpl; lia.
  - apply (client_error_and_unexpected_status sample_run sample_user no_content);
      simpl; lia.
  - apply (client_error_and_unexpected_status sample_run sample_user
             connection_failed); simpl; lia.
Defined.

(** X3: a response with status 200 or 201 counts as a success like an
    accepted one, and bumps the user's own [jobs_submitted], but its
    body is never read: [job_ids] stays as it was even when the body
    carries an [id]. *)
Theorem ok_response_records_no_id (m : Metrics) (u : PartitionScalingUser)
    (r : Response) :
  status_code r = 200 \/ status_code r = 201 ->
  let '(m', u', report) := submit_job m u r in
  report = Success /\
  successful_submissions m' = successful_submissions m + 1 /\
  failed_submissions m' = failed_submissions m /\
  rate_limited m' = rate_limited m /\
  job_ids m' = job_ids m /\
  jobs_submitted u' = jobs_submitted u + 1.
Proof.
  intros H. unfold submit_job, classify_response.
  assert ((status_code r =? 202) = false) as -> by lia.
  assert (((status_code r =? 200) || (status_code r =? 201)) = true) as ->
    by (apply orb_true_iff; lia).
  repeat split; reflexivity.
Qed.

Lemma ok_response_records_no_id_witness :
  json_body ok_with_id = Some (JObject [("id"%string, JString "abc123")]) /\
  job_ids (metrics_of (submit_job Metrics_init sample_user ok_with_id)) = [] /\
  successful_submissions (metrics_of (submit_job Metrics_init sample_user ok_with_id))
  = 1.
Proof.
  pose proof (ok_response_records_no_id Metrics_init sample_user ok_with_id
                (or_introl eq_refl)) as H.
  destruct (submit_job Metrics_init sample_user ok_with_id) as [[m' u'] rep].
  destruct H as (_ & Hs & _ & _ & Hj & _).
  split; [reflexivity|]. split; [exact Hj|exact Hs].
Defined.

(* ===================================================================== *)
(** * What every state of the aggregate satisfies                         *)
(* ===================================================================== *)

Lemma record_job_id_frame (m : Metrics) (r : Response) :
  partition_count (record_job_id m r) = partition_count m /\
  worker_count (record_job_id m r) = worker_count m.
Proof.
  unfold record_job_id.
  destruct (json_body r) as [[ | | | | | |d]|]; try (split; reflexivity).
  destruct (truthy _); split; reflexivity.
Qed.

Lemma submit_job_frame (m : Metrics) (u : PartitionScalingUser) (r : Response) :
  partition_count (metrics_of (submit_job m u r)) = partition_count m /\
  worker_count (metrics_of (submit_job m u r)) = worker_count m.
Proof.
  unfold submit_job. classify_cases r; try (split; reflexivity).
  destruct (record_job_id_frame
              (set_successful_submissions
                 (successful_submissions (track_request m) + 1)
                 (track_request m)) r) as [Hp Hw].
  rewrite Hp, Hw. split; reflexivity.
Qed.

Lemma submit_job_successful (m : Metrics) (u : PartitionScalingUser) (r : Response) :
  successful_submissions (metrics_of (submit_job m u r))
  = successful_submissions m
    + (if (status_code r =? 202) || (status_code r =? 200)
          || (status_code r =? 201)
       then 1 else 0).
Proof.
  unfold submit_job. classify_cases r.
  - destruct (record_job_id_counters
                (set_successful_submissions
                   (successful_submissions (track_request m) + 1)
                   (track_request m)) r) as (_ & Hs & _).
    rewrite Hs. reflexivity.
  - cbn [orb]. rewrite E20x. reflexivity.
  - cbn [orb]. rewrite E20x. cbn. lia.
  - cbn [orb]. rewrite E20x. cbn. lia.
  - cbn [orb]. rewrite E20x. cbn. lia.
  - cbn [orb]. rewrite E20x. cbn. lia.
Qed.

Lemma step_frame (m : Metrics) (e : Event) :
  partition_count (step m e) = partition_count m /\
  worker_count (step m e) = worker_count m.
Proof.
  destruct e as [self_id now|u r|env now]; cbn [step].
  - unfold on_start. destruct (start_time m); split; reflexivity.
  - apply submit_job_frame.
  - split; reflexivity.
Qed.

(** X4: the driver never alters its configuration: whatever users
    start, responses are classified and runs are restarted,
    [partition_count] and [worker_count] stay what they were, so in
    every state a process can be in they are the 16 and 4 of
    [Metrics.__init__]. *)
Theorem configuration_is_fixed (m : Metrics) (evs : list Event) :
  partition_count (run m evs) = partition_count m /\
  worker_count (run m evs) = worker_count m /\
  (reachable m -> partition_count m = 16 /\ worker_count m = 4).
Proof.
  split; [|split].
  - revert m. unfold run.
    induction evs as [|e evs IH]; intros m; cbn [fold_left]; [reflexivity|].
    rewrite IH. apply step_frame.
  - revert m. unfold run.
    induction evs as [|e evs IH]; intros m; cbn [fold_left]; [reflexivity|].
    rewrite IH. apply step_frame.
  - induction 1 as [|m' e _ IH]; [split; reflexivity|].
    destruct (step_frame m' e) as [Hp Hw]. rewrite Hp, Hw. exact IH.
Qed.

Lemma configuration_is_fixed_witness :
  partition_count sample_run = 16 /\ worker_count sample_run = 4.
Proof.
  apply (configuration_is_fixed sample_run []).
  unfold sample_run. apply run_reachable.
  apply (reachable_step Metrics_init
           (TestStart sample_environment (clock_at 1000))).
  apply reachable_init.
Defined.

(** X5: in every state a process can be in, across user starts,
    classifications and restarts, the counters add up
    ([total_jobs_submitted] is the sum of the three outcome counters)
    and none of them is negative. *)
Theorem reachable_counters_consistent (m : Metrics) :
  reachable m -> accounted m /\ counters_nonneg m.
Proof.
  intros H. split.
  - apply reachable_accounted. exact H.
  - apply reachable_counters_nonneg. exact H.
Qed.

Lemma reachable_counters_consistent_witness :
  accounted sample_run /\ counters_nonneg sample_run.
Proof.
  apply (reachable_counters_consistent sample_run).
  unfold sample_run. apply run_reachable.
  apply (reachable_step Metrics_init
           (TestStart sample_environment (clock_at 1000))).
  apply reachable_init.
Defined.

Lemma record_job_id_appends (m : Metrics) (r : Response) :
  exists added,
    job_ids (record_job_id m r) = job_ids m ++ added /\
    (List.length added <= 1)%nat /\
    Forall (fun v => truthy v = true) added.
Proof.
  unfold record_job_id.
  destruct (json_body r) as [[ | | | | | |d]|];
    try (exists []; rewrite app_nil_r; repeat split; [simpl; lia|constructor]).
  destruct (truthy (py_or (dict_get d "id") (dict_get d "jobId"))) eqn:E.
  - exists [py_or (dict_get d "id") (dict_get d "jobId")].
    repeat split; [simpl; lia|]. constructor; [exact E|constructor].
  - exists []. rewrite app_nil_r. repeat split; [simpl; lia|constructor].
Qed.

Lemma submit_job_appends (m : Metrics) (u : PartitionScalingUser) (r : Response) :
  exists added,
    job_ids (metrics_of (submit_job m u r)) = job_ids m ++ added /\
    Z.of_nat (List.length added) <= (if status_code r =? 202 then 1 else 0) /\
    Forall (fun v => truthy v = true) added.
Proof.
  destruct (Z.eqb_spec (status_code r) 202) as [E|E].
  - rewrite (submit_job_accepted m u r E). unfold metrics_of. cbn [fst].
    destruct (record_job_id_appends
                (set_successful_submissions
                   (successful_submissions (track_request m) + 1)
                   (track_request m)) r) as (added & H1 & H2 & H3).
    exists added. split; [exact H1|]. split; [lia|exact H3].
  - exists []. rewrite app_nil_r. split.
    + unfold submit_job. rewrite classify_response_job_ids_other by exact E.
      reflexivity.
    + split; [simpl; lia|constructor].
Qed.

(** X6: classifying responses only ever appends to [job_ids]: the
    identifiers recorded before stay where they were, in order; at most
    one identifier is added per accepted (202) response and none for
    any other response; and every identifier added is truthy. *)
Theorem job_ids_append_only (rs : list Response) (m : Metrics)
    (u : PartitionScalingUser) :
  exists added,
    job_ids (fst (submit_all m u rs)) = job_ids m ++ added /\
    Z.of_nat (List.length added) <= count_accepted rs /\
    Forall (fun v => truthy v = true) added.
Proof.
  revert m u. induction rs as [|r rs IH]; intros m u.
  - exists []. cbn [submit_all fst]. rewrite app_nil_r.
    repeat split; [unfold count_accepted; simpl; lia|constructor].
  - cbn [submit_all].
    destruct (submit_job_appends m u r) as (a1 & H1 & L1 & T1).
    destruct (submit_job m u r) as [[m' u'] rep].
    unfold metrics_of in H1. cbn [fst] in H1.
    destruct (IH m' u') as (a2 & H2 & L2 & T2).
    exists (a1 ++ a2). split; [|split].
    + rewrite H2, H1, app_assoc. reflexivity.
    + rewrite length_app, Nat2Z.inj_add.
      unfold count_accepted in *. cbn [filter].
      destruct (status_code r =? 202); cbn [List.length]; lia.
    + apply Forall_app. split; assumption.
Qed.

(** X7: in every state a process can be in, [job_ids] holds truthy
    identifiers only, and no more of them than
    [successful_submissions] counts. *)
Theorem reachable_job_ids_bounded (m : Metrics) :
  reachable m ->
  Z.of_nat (List.length (job_ids m)) <= successful_submissions m /\
  Forall (fun v => truthy v = true) (job_ids m).
Proof.
  induction 1 as [|m e _ [IHl IHt]].
  - split; [simpl; lia|constructor].
  - destruct e as [self_id now|u r|env now]; cbn [step].
    + unfold on_start. destruct (start_time m); split; assumption.
    + destruct (submit_job_appends m u r) as (added & H1 & L1 & T1).
      rewrite H1, length_app, Nat2Z.inj_add. split.
      * rewrite submit_job_successful.
        destruct (status_code r =? 202); cbn [orb]; [lia|].
        destruct ((status_code r =? 200) || (status_code r =? 201)); lia.
      * apply Forall_app. split; assumption.
    + split; [simpl; lia|constructor].
Qed.

Lemma reachable_job_ids_bounded_witness :
  Z.of_nat (List.length (job_ids sample_run)) <= successful_submissions sample_run /\
  Forall (fun v => truthy v = true) (job_ids sample_run).
Proof.
  apply (reachable_job_ids_bounded sample_run).
  unfold sample_run. apply run_reachable.
  apply (reachable_step Metrics_init
           (TestStart sample_environment (clock_at 1000))).
  apply reachable_init.
Defined.

(* ===================================================================== *)
(** * The user's own state                                                *)
(* ===================================================================== *)

Lemma submit_job_user (m : Metrics) (u : PartitionScalingUser) (r : Response) :
  let '(m', u', _) := submit_job m u r in
  jobs_submitted u' - jobs_submitted u
  = successful_submissions m' - successful_submissions m /\
  client_id u' = client_id u.
Proof.
  pose proof (submit_job_successful m u r) as Hs. revert Hs.
  unfold submit_job, metrics_of.
  unfold classify_response.
  destruct (status_code r =? 202); cbn [orb fst snd].
  - intros Hs. rewrite Hs. cbn. split; [lia|reflexivity].
  - destruct ((status_code r =? 200) || (status_code r =? 201)); cbn [fst].
    + intros _. cbn. split; [lia|reflexivity].
    + destruct (status_code r =? 429); [intros _; cbn; split; [lia|reflexivity]|].
      destruct (status_code r >=? 500); [intros _; cbn; split; [lia|reflexivity]|].
      destruct (status_code r >=? 400); intros _; cbn; split; lia || reflexivity.
Qed.

(** X8: over any sequence of responses one user classifies, the user's
    own [jobs_submitted] goes up by exactly as much as the shared
    [successful_submissions] (so rate-limited and failed responses are
    not counted as submitted jobs), and the user keeps its
    [client_id]. *)
Theorem jobs_submitted_tracks_successes (rs : list Response) (m : Metrics)
    (u : PartitionScalingUser) :
  jobs_submitted (snd (submit_all m u rs)) - jobs_submitted u
  = successful_submissions (fst (submit_all m u rs)) - successful_submissions m /\
  client_id (snd (submit_all m u rs)) = client_id u.
Proof.
  revert m u. induction rs as [|r rs IH]; intros m u.
  - cbn [submit_all fst snd]. split; [lia|reflexivity].
  - cbn [submit_all]. pose proof (submit_job_user m u r) as H.
    destruct (submit_job m u r) as [[m' u'] rep].
    destruct H as [Hj Hc]. destruct (IH m' u') as [IHj IHc].
    split; [lia|congruence].
Qed.

Lemma py_str_int_inj (a b : Z) : py_str_int a = py_str_int b -> a = b.
Proof.
  unfold py_str_int. intros H. apply DecimalZ.to_int_inj.
  assert (forall z, Z.to_int z <> Decimal.Pos Decimal.Nil /\
                    Z.to_int z <> Decimal.Neg Decimal.Nil) as Hn.
  { intros [|p|p]; simpl; split; try discriminate;
      intros [= Hp]; apply (DecimalPos.Unsigned.to_uint_nonnil p Hp). }
  pose proof (NilZero.isi (Z.to_int a) (proj1 (Hn a)) (proj2 (Hn a))) as Ha.
  pose proof (NilZero.isi (Z.to_int b) (proj1 (Hn b)) (proj2 (Hn b))) as Hb.
  rewrite H in Ha. rewrite Ha in Hb. injection Hb as Hb. exact Hb.
Qed.

(** X10: the [client_id] of a user is [partition-test-user-] followed
    by one decimal digit, whatever [id(self)] is; two users get the
    same [client_id] exactly when their identities agree modulo 10, so
    more than ten users necessarily share client ids. *)
Theorem client_id_buckets (m1 m2 : Metrics) (id1 id2 : Z) (now1 now2 : float) :
  (exists k, 0 <= k <= 9 /\
     client_id (snd (on_start m1 id1 now1))
     = ("partition-test-user-" ++ py_str_int k)%string) /\
  (client_id (snd (on_start m1 id1 now1)) = client_id (snd (on_start m2 id2 now2))
   <-> id1 mod 10 = id2 mod 10).
Proof.
  unfold on_start. cbn [snd client_id]. split.
  - exists (id1 mod 10). split; [|reflexivity].
    pose proof (Z.mod_pos_bound id1 10). lia.
  - split.
    + intros H. apply py_str_int_inj.
      cbn [String.append] in H. injection H as H. exact H.
    + intros ->. reflexivity.
Qed.

(* ===================================================================== *)
(** * Restarting a run                                                    *)
(* ===================================================================== *)

Lemma run_app (m : Metrics) (evs1 evs2 : list Event) :
  run m (evs1 ++ evs2) = run (run m evs1) evs2.
Proof. unfold run. apply fold_left_app. Qed.

Lemma on_start_after_start (m : Metrics) (self_id : Z) (now : float) :
  start_time m <> None -> fst (on_start m self_id now) = m.
Proof.
  intros H. unfold on_start. destruct (start_time m); [reflexivity|contradiction].
Qed.

Lemma on_start_total (m : Metrics) (self_id : Z) (now : float) :
  total_jobs_submitted (fst (on_start m self_id now)) = total_jobs_submitted m.
Proof. unfold on_start. destruct (start_time m); reflexivity. Qed.

Lemma run_without_restart (evs : list Event) :
  forallb (fun e => negb (is_test_start e)) evs = true ->
  forall m,
    total_jobs_submitted (run m evs)
    = total_jobs_submitted m + count_submitted evs /\
    (start_time m <> None -> start_time (run m evs) = start_time m).
Proof.
  unfold run, count_submitted.
  induction evs as [|e evs IH]; intros Hno m; cbn [fold_left filter].
  - split; [simpl; lia|reflexivity].
  - cbn [forallb] in Hno. apply andb_true_iff in Hno as [He Hno].
    destruct (IH Hno (step m e)) as [IHt IHs].
    destruct e as [self_id now|u r|env now]; [| |discriminate He];
      cbn [is_submit_job step] in *.
    + rewrite on_start_total in IHt. split; [lia|].
      intros Hst. rewrite (on_start_after_start m self_id now Hst) in *.
      apply IHs. exact Hst.
    + pose proof (submit_job_total m u r) as Ht.
      pose proof (submit_job_start_time m u r) as Hs.
      cbn [List.length]. split; [lia|].
      intros Hst. rewrite IHs; [exact Hs|]. rewrite Hs. exact Hst.
Qed.

Lemma on_start_sets_unset (m : Metrics) (self_id : Z) (now : float) :
  start_time m = None -> start_time (fst (on_start m self_id now)) = Some now.
Proof. intros H. unfold on_start. rewrite H. reflexivity. Qed.

(** X9: when no run start has set it, the first user to start marks
    the start of the run: over any events without a run start, from an
    aggregate whose [start_time] is unset, [start_time] ends up as the
    clock reading of the first user start, however many users start
    later, and stays unset if no user starts; classified responses
    never set it. *)
Theorem first_user_start_marks_run (evs : list Event) (m : Metrics) :
  forallb (fun e => negb (is_test_start e)) evs = true ->
  start_time m = None ->
  start_time (run m evs) = first_user_start evs.
Proof.
  revert m. induction evs as [|e evs IH]; intros m Hno Hst.
  - exact Hst.
  - cbn [forallb] in Hno. apply andb_true_iff in Hno as [He Hno].
    destruct e as [self_id now|u r|env now]; [| |discriminate He];
      cbn [first_user_start].
    + change (run m (UserStart self_id now :: evs))
        with (run (fst (on_start m self_id now)) evs).
      destruct (run_without_restart evs Hno (fst (on_start m self_id now)))
        as [_ Hfix].
      rewrite Hfix.
      * apply on_start_sets_unset. exact Hst.
      * rewrite (on_start_sets_unset m self_id now Hst). discriminate.
    + change (run m (SubmitJob u r :: evs))
        with (run (metrics_of (submit_job m u r)) evs).
      apply IH; [exact Hno|]. rewrite submit_job_start_time. exact Hst.
Qed.

Lemma first_user_start_marks_run_witness :
  start_time
    (run Metrics_init
       [ SubmitJob sample_user accepted_abc123;
         UserStart 7 (clock_at 1001);
         UserStart 8 (clock_at 1002);
         SubmitJob sample_user too_many_requests ])
  = Some (clock_at 1001).
Proof.
  apply (first_user_start_marks_run
           [ SubmitJob sample_user accepted_abc123;
             UserStart 7 (clock_at 1001);
             UserStart 8 (clock_at 1002);
             SubmitJob sample_user too_many_requests ] Metrics_init);
    reflexivity.
Defined.

(** X11: a run start forgets what came before it: whatever the events
    before the last run start were, the aggregate afterwards counts in
    [total_jobs_submitted] exactly the responses classified since, and
    [start_time] is the clock reading of that run start, whichever
    users started since. *)
Theorem restart_forgets_previous_run (m : Metrics) (before since : list Event)
    (env : Environment) (now : float) :
  forallb (fun e => negb (is_test_start e)) since = true ->
  total_jobs_submitted (run m (before ++ TestStart env now :: since))
  = count_submitted since /\
  start_time (run m (before ++ TestStart env now :: since)) = Some now.
Proof.
  intros Hno. rewrite run_app.
  change (run (run m before) (TestStart env now :: since))
    with (run (on_test_start (run m before) env now) since).
  destruct (run_without_restart since Hno (on_test_start (run m before) env now))
    as [Ht Hs].
  split.
  - rewrite Ht. reflexivity.
  - rewrite Hs; [reflexivity|]. discriminate.
Qed.

Lemma restart_forgets_previous_run_witness :
  total_jobs_submitted
    (run sample_run
       ([SubmitJob sample_user not_found]
        ++ TestStart sample_environment (clock_at 2000)
           :: [UserStart 7 (clock_at 2001);
               SubmitJob sample_user accepted_abc123]))
  = 1 /\
  start_time
    (run sample_run
       ([SubmitJob sample_user not_found]
        ++ TestStart sample_environment (clock_at 2000)
           :: [UserStart 7 (clock_at 2001);
               SubmitJob sample_user accepted_abc123]))
  = Some (clock_at 2000).
Proof.
  apply (restart_forgets_previous_run sample_run
           [SubmitJob sample_user not_found]
           [UserStart 7 (clock_at 2001); SubmitJob sample_user accepted_abc123]
           sample_environment (clock_at 2000)).
  reflexivity.
Defined.

(* ===================================================================== *)
(** * The guards against dividing by zero                                 *)
(* ===================================================================== *)

Lemma int_truediv_never_zero_division (a b : Z) :
  b <> 0 -> int_truediv a b <> Raise ZeroDivisionError.
Proof.
  intros Hb. unfold int_truediv.
  destruct (Z.eqb_spec b 0) as [E|_]; [contradiction|].
  destruct (Float64.is_infinite _); discriminate.
Qed.

(** X12: neither rate ever divides by zero: for every state of the
    aggregate and every clock reading (an elapsed time of zero, a clock
    that went backwards, a NaN; no outcome classified yet),
    [get_throughput], [get_error_rate] and the run-stop hook do not
    raise [ZeroDivisionError]. *)
Theorem rates_never_divide_by_zero (round_float : float -> Z -> float)
    (m : Metrics) (env : Environment) (now1 now2 : float) (stamp : string)
    (file : csv_path) :
  get_throughput m now2 <> Raise ZeroDivisionError /\
  get_error_rate m <> Raise ZeroDivisionError /\
  on_test_stop round_float m env now1 now2 stamp file <> Raise ZeroDivisionError.
Proof.
  assert (get_throughput m now2 <> Raise ZeroDivisionError) as Ht.
  { unfold get_throughput. destruct (start_time m) as [st|]; [|discriminate].
    unfold throughput_since.
    destruct (py_gt_int (PyFloat (Float64.sub now2 st)) 0) eqn:E; [|discriminate].
    unfold py_truediv, to_float, float_of_int.
    destruct (Float64.is_infinite _); cbn [bind]; [discriminate|].
    unfold float_truediv. rewrite (positive_float_nonzero _ E). discriminate. }
  assert (get_error_rate m <> Raise ZeroDivisionError) as He.
  { unfold get_error_rate. cbn [py_gt_int].
    destruct (Z.gtb_spec (successful_submissions m + failed_submissions m) 0)
      as [Hpos|_]; [|discriminate].
    unfold py_truediv.
    pose proof (int_truediv_never_zero_division (failed_submissions m)
                  (successful_submissions m + failed_submissions m)) as Hd.
    destruct (int_truediv _ _) as [q|[ | ]]; cbn [bind].
    - discriminate.
    - discriminate.
    - exfalso. apply Hd; [lia|reflexivity]. }
  split; [exact Ht|]. split; [exact He|].
  unfold on_test_stop. destruct (start_time m) as [st|] eqn:E; [|discriminate].
  destruct (get_throughput m now2) as [t|[ | ]]; cbn [bind];
    [|discriminate|contradiction].
  destruct (get_error_rate m) as [er|[ | ]]; cbn [bind];
    [discriminate|discriminate|contradiction].
Qed.

(* ===================================================================== *)
(** * The sign of the throughput                                          *)
(* ===================================================================== *)

Lemma binary_round_aux_nonneg (mx ex : Z) (lx : location) :
  0 <= mx ->
  float_nonneg (binary_round_aux Float64.prec Float64.emax false mx ex lx) = true.
Proof.
  intros Hm. unfold binary_round_aux.
  pose proof (shr_fexp_spec mx ex lx Hm) as H1.
  destruct (shr_fexp Float64.prec Float64.emax mx ex lx) as [mrs1 e1].
  destruct H1 as (Hm1 & _ & _).
  pose proof (round_nearest_even_spec (shr_m mrs1) (loc_of_shr_record mrs1) Hm1)
    as [Hr _].
  pose proof (shr_fexp_spec _ e1 loc_Exact Hr) as H2.
  destruct (shr_fexp Float64.prec Float64.emax
              (round_nearest_even (shr_m mrs1) (loc_of_shr_record mrs1))
              e1 loc_Exact) as [mrs2 e2].
  destruct H2 as (Hm2 & _ & _).
  destruct (shr_m mrs2) as [|p|p]; [reflexivity| |lia].
  destruct (e2 <=? Float64.emax - Float64.prec); reflexivity.
Qed.

Lemma nearest_nonneg (z : Z) : 0 <= z -> float_nonneg (Float64.nearest z) = true.
Proof.
  intros Hz. destruct z as [|p|p]; [reflexivity| |lia].
  unfold Float64.nearest, binary_normalize, binary_round.
  destruct (shl_align p 0 _) as [mz ez].
  apply binary_round_aux_nonneg. lia.
Qed.

Lemma positive_float_nonneg (f : float) :
  Float64.gt_int f 0 = true -> float_nonneg f = true.
Proof.
  destruct f as [s|s| |s m e]; cbn [Float64.gt_int float_nonneg].
  - discriminate.
  - destruct s; [discriminate|reflexivity].
  - discriminate.
  - destruct s; [|reflexivity]. intros H. exfalso.
    destruct (0 <=? e) eqn:E; apply Z.gtb_lt in H.
    + apply Z.leb_le in E. pose proof (Z.pow_nonneg 2 e ltac:(lia)). nia.
    + lia.
Qed.

Lemma SFdiv_core_binary_nonneg (m1 m2 : positive) (e1 e2 : Z) :
  0 <= fst (fst (SFdiv_core_binary Float64.prec Float64.emax
                   (Zpos m1) e1 (Zpos m2) e2)).
Proof.
  unfold SFdiv_core_binary.
  set (e' := Z.min _ (e1 - e2)).
  set (m' := match e1 - e2 - e' with
             | Z0 => Zpos m1
             | Zpos _ => Z.shiftl (Zpos m1) (e1 - e2 - e')
             | Zneg _ => 0
             end).
  assert (0 <= m') as Hm'.
  { subst m'. destruct (e1 - e2 - e') as [|s|s]; try lia.
    apply Z.shiftl_nonneg. lia. }
  destruct (Z.div_eucl m' (Zpos m2)) as [q r] eqn:Eq. cbn [fst].
  assert (q = m' / Zpos m2) as -> by (unfold Z.div; rewrite Eq; reflexivity).
  apply Z.div_pos; lia.
Qed.

Lemma div_nonneg (x y : float) :
  float_nonneg x = true -> Float64.is_infinite x = false ->
  float_nonneg y = true -> Float64.is_zero y = false ->
  float_nonneg (Float64.div x y) = true.
Proof.
  destruct x as [[|]|[|]| |[|] mx ex]; try discriminate;
    destruct y as [[|]|[|]| |[|] my ey]; try discriminate; intros _ _ _ _;
    try reflexivity.
  unfold Float64.div, SFdiv.
  pose proof (SFdiv_core_binary_nonneg mx my ex ey) as H.
  destruct (SFdiv_core_binary Float64.prec Float64.emax (Zpos mx) ex (Zpos my) ey)
    as [[mz ez] lz].
  cbn [fst] in H. cbn [xorb]. apply binary_round_aux_nonneg. exact H.
Qed.

(** X13: the throughput is never negative and never a NaN: for a
    counter that is a count a double can hold, and whatever the clock
    reads, [get_throughput] returns the integer 0 or a float that is
    [+0.0], positive, or [+inf]. *)
Theorem throughput_is_nonnegative (m : Metrics) (now : float) :
  0 <= successful_submissions m ->
  in_double_range (successful_submissions m) ->
  exists throughput,
    get_throughput m now = Ok throughput /\
    (throughput = PyInt 0 \/
     exists f, throughput = PyFloat f /\ float_nonneg f = true).
Proof.
  intros Hs Hr. unfold get_throughput.
  destruct (start_time m) as [st|]; [|exists (PyInt 0); split; [reflexivity|left; reflexivity]].
  destruct (py_gt_int (PyFloat (Float64.sub now st)) 0) eqn:E.
  - rewrite (throughput_since_in_range m st now E Hr).
    eexists. split; [reflexivity|]. right. eexists. split; [reflexivity|].
    apply div_nonneg.
    + apply nearest_nonneg. exact Hs.
    + apply nearest_finite. exact Hr.
    + apply positive_float_nonneg. exact E.
    + apply positive_float_nonzero. exact E.
  - unfold throughput_since. rewrite E.
    exists (PyInt 0). split; [reflexivity|left; reflexivity].
Qed.

Lemma throughput_is_nonnegative_witness :
  exists throughput,
    get_throughput sample_run (clock_at 1010) = Ok throughput /\
    (throughput = PyInt 0 \/
     exists f, throughput = PyFloat f /\ float_nonneg f = true).
Proof.
  apply (throughput_is_nonnegative sample_run (clock_at 1010)).
  - simpl. lia.
  - unfold in_double_range. simpl. lia.
Defined.

(* ===================================================================== *)
(** * The ends of the error rate                                          *)
(* ===================================================================== *)

Lemma div_eucl_shiftl_self (p : positive) (s : Z) :
  0 <= s -> Z.div_eucl (Z.shiftl (Zpos p) s) (Zpos p) = (2 ^ s, 0).
Proof.
  intros Hs. rewrite Z.shiftl_mul_pow2 by exact Hs.
  destruct (Z.div_eucl (Zpos p * 2 ^ s) (Zpos p)) as [q r] eqn:E.
  assert (q = Zpos p * 2 ^ s / Zpos p) as ->
    by (unfold Z.div; rewrite E; reflexivity).
  assert (r = (Zpos p * 2 ^ s) mod Zpos p) as ->
    by (unfold Z.modulo; rewrite E; reflexivity).
  rewrite (Z.mul_comm (Zpos p)).
  rewrite Z.div_mul by lia. rewrite Z.mod_mul by lia. reflexivity.
Qed.

(** An integer divided by itself is the double [1.0]. *)
Lemma div_exact_self (p : positive) :
  Float64.div (Float64.exact (Zpos p)) (Float64.exact (Zpos p)) = float_one.
Proof.
  unfold Float64.div, Float64.exact, SFdiv, SFdiv_core_binary.
  replace (Zdigits2 (Zpos p) + 0 - (Zdigits2 (Zpos p) + 0)) with 0 by lia.
  change (Z.min (fexp Float64.prec Float64.emax 0) (0 - 0)) with (-53).
  change (0 - 0 - -53) with 53. cbv iota.
  change (IntDef.Z.div_eucl (IntDef.Z.shiftl (Zpos p) 53) (Zpos p))
    with (Z.div_eucl (Z.shiftl (Zpos p) 53) (Zpos p)).
  rewrite (div_eucl_shiftl_self p 53) by lia.
  unfold new_location, new_location_even, new_location_odd.
  destruct (Z.even (Zpos p)); vm_compute; reflexivity.
Qed.

(** X14: the two ends of the error rate are exact: with at least one
    success and no failure it is the float [0.0] (not the integer 0 of
    the empty case), and with at least one failure and no success it
    is exactly [100.0], however large the counter. *)
Theorem error_rate_extremes (m : Metrics) :
  (failed_submissions m = 0 -> 0 < successful_submissions m ->
   get_error_rate m = Ok (PyFloat (S754_zero false))) /\
  (successful_submissions m = 0 -> 0 < failed_submissions m ->
   get_error_rate m = Ok (PyFloat float_hundred)).
Proof.
  split.
  - intros Hf Hs. unfold get_error_rate. rewrite Hf.
    destruct (successful_submissions m) as [|p|p]; try lia.
    reflexivity.
  - intros Hs Hf. unfold get_error_rate. rewrite Hs.
    destruct (failed_submissions m) as [|p|p]; try lia.
    cbn [Z.add py_gt_int]. change (Zpos p >? 0) with true. cbv iota.
    unfold py_truediv, int_truediv. change (Zpos p =? 0) with false. cbv iota.
    rewrite div_exact_self. reflexivity.
Qed.

Lemma error_rate_extremes_witness :
  get_error_rate clean_run = Ok (PyFloat (S754_zero false)) /\
  get_error_rate failing_run = Ok (PyFloat float_hundred).
Proof.
  split.
  - apply (proj1 (error_rate_extremes clean_run)); [reflexivity|simpl; lia].
  - apply (proj2 (error_rate_extremes failing_run)); [reflexivity|simpl; lia].
Defined.

(* ===================================================================== *)
(** * Run after run on one results file                                   *)
(* ===================================================================== *)

Lemma on_test_stop_ready (round_float : float -> Z -> float) (c : StopCall)
    (file : csv_path) :
  stop_call_ready c ->
  exists row,
    List.length row = 11%nat /\
    on_test_stop round_float (stop_metrics c) (stop_environment c)
      (stop_now1 c) (stop_now2 c) (stop_stamp c) file
    = Ok (ResultsSaved,
          Some ((match file with Some old => old | None => [csv_header] end)
                ++ [row])).
Proof.
  intros (Hst & Hs & Hf).
  destruct (get_error_rate_returns (stop_metrics c) Hf) as [er He].
  destruct (get_throughput_returns (stop_metrics c) (stop_now2 c) Hs) as [t Ht].
  unfold on_test_stop.
  destruct (start_time (stop_metrics c)) as [st|]; [|contradiction].
  rewrite Ht, He. cbn [bind]. unfold save_results.
  eexists. split; [|destruct file; reflexivity]. reflexivity.
Qed.

Lemma stop_all_ready (round_float : float -> Z -> float) (calls : list StopCall) :
  Forall stop_call_ready calls ->
  forall file,
  exists rows,
    List.length rows = List.length calls /\
    Forall (fun row => List.length row = 11%nat) rows /\
    stop_all round_float file calls
    = Ok (match calls with
          | [] => file
          | _ :: _ =>
              Some ((match file with Some old => old | None => [csv_header] end)
                    ++ rows)
          end).
Proof.
  induction 1 as [|c calls Hc _ IH]; intros file.
  - exists []. repeat split. constructor.
  - destruct (on_test_stop_ready round_float c file Hc) as (row & Hlen & Hstop).
    cbn [stop_all]. rewrite Hstop. cbn [bind snd].
    destruct (IH (Some ((match file with Some old => old | None => [csv_header] end)
                        ++ [row]))) as (rows & Hn & Hall & Hrest).
    exists (row :: rows). split; [simpl; congruence|].
    split; [constructor; assumption|].
    rewrite Hrest. destruct calls as [|c' calls'].
    + destruct rows; [reflexivity|discriminate Hn].
    + rewrite <- app_assoc. reflexivity.
Qed.

(** X15: any number of runs stopped one after the other, each with
    [start_time] set and counters a double can hold, leave one record
    of eleven fields per run, in the order of the runs, after what the
    file held before: a path that was no file gets the header once, as
    its first line, and a file that was there gets no header at all. *)
Theorem stops_write_one_header (round_float : float -> Z -> float)
    (calls : list StopCall) (file : csv_path) :
  Forall stop_call_ready calls ->
  calls <> [] ->
  exists rows,
    List.length rows = List.length calls /\
    Forall (fun row => List.length row = 11%nat) rows /\
    stop_all round_float file calls
    = Ok (Some ((match file with Some old => old | None => [csv_header] end)
                ++ rows)).
Proof.
  intros Hready Hne.
  destruct (stop_all_ready round_float calls Hready file) as (rows & Hn & Hall & H).
  exists rows. split; [exact Hn|]. split; [exact Hall|].
  rewrite H. destruct calls; [contradiction|reflexivity].
Qed.

Lemma stops_write_one_header_witness :
  exists rows,
    List.length rows = 2%nat /\
    Forall (fun row => List.length row = 11%nat) rows /\
    stop_all round_identity None
      [ mkStopCall sample_run sample_environment (clock_at 1010) (clock_at 1011)
          "2026-01-01T00:00:10";
        mkStopCall failing_run sample_environment (clock_at 1020) (clock_at 1021)
          "2026-01-01T00:00:20" ]
    = Ok (Some ([csv_header] ++ rows)).
Proof.
  apply (stops_write_one_header round_identity
           [ mkStopCall sample_run sample_environment (clock_at 1010)
               (clock_at 1011) "2026-01-01T00:00:10";
             mkStopCall failing_run sample_environment (clock_at 1020)
               (clock_at 1021) "2026-01-01T00:00:20" ] None).
  - repeat constructor; try discriminate;
      unfold in_double_range; simpl; lia.
  - discriminate.
Defined.

(* ===================================================================== *)
(** * Order identifiers                                                   *)
(* ===================================================================== *)

Lemma order_ids_bound (rs : list Response) :
  forall m u s,
    In s (order_ids m u rs) ->
    exists k, total_jobs_submitted m <= k /\
              s = ("order-" ++ py_str_int k)%string.
Proof.
  induction rs as [|r rs IH]; intros m u s Hin; [contradiction|].
  cbn [order_ids] in Hin. pose proof (submit_job_total m u r) as Ht.
  destruct (submit_job m u r) as [[m' u'] rep].
  unfold metrics_of in Ht. cbn [fst] in Ht.
  destruct Hin as [<-|Hin].
  - exists (total_jobs_submitted m). split; [lia|reflexivity].
  - destruct (IH m' u' s Hin) as (k & Hk & Hs).
    exists k. split; [lia|exact Hs].
Qed.

(** X16: a user that submits one request at a time never repeats an
    [orderId] within a run: the order identifiers of any sequence of
    its payloads are pairwise distinct.  A run start takes the
    numbering back to [order-0], so order identifiers do repeat from
    one run to the next. *)
Theorem order_ids_distinct_within_run (rs : list Response) (m : Metrics)
    (u : PartitionScalingUser) :
  NoDup (order_ids m u rs) /\
  (forall env now, order_id (on_test_start m env now) = "order-0"%string).
Proof.
  split; [|reflexivity].
  revert m u. induction rs as [|r rs IH]; intros m u; [constructor|].
  cbn [order_ids]. pose proof (submit_job_total m u r) as Ht.
  pose proof (order_ids_bound rs) as Hb.
  destruct (submit_job m u r) as [[m' u'] rep].
  unfold metrics_of in Ht. cbn [fst] in Ht.
  constructor; [|apply IH].
  intros Hin. destruct (Hb m' u' _ Hin) as (k & Hk & Hs).
  unfold order_id in Hs. cbn [String.append] in Hs. injection Hs as Hs.
  apply py_str_int_inj in Hs. lia.
Qed.

(* ===================================================================== *)
(** * What the report does not read                                       *)
(* ===================================================================== *)

(** X17: the collected job identifiers are write-only: nothing the
    driver computes or writes depends on [job_ids].  Replacing the list
    by any other changes neither [get_throughput], nor
    [get_error_rate], nor what the run-stop hook writes, nor, for a
    response, the counters and the report of its classification. *)
Theorem job_ids_are_never_read (round_float : float -> Z -> float)
    (ids : list json) (m : Metrics) (env : Environment) (now1 now2 : float)
    (stamp : string) (file : csv_path) (u : PartitionScalingUser) (r : Response) :
  get_throughput (set_job_ids ids m) now2 = get_throughput m now2 /\
  get_error_rate (set_job_ids ids m) = get_error_rate m /\
  on_test_stop round_float (set_job_ids ids m) env now1 now2 stamp file
  = on_test_stop round_float m env now1 now2 stamp file /\
  report_of (submit_job (set_job_ids ids m) u r) = report_of (submit_job m u r) /\
  set_job_ids (job_ids (metrics_of (submit_job m u r)))
    (metrics_of (submit_job (set_job_ids ids m) u r))
  = metrics_of (submit_job m u r).
Proof.
  split; [reflexivity|]. split; [reflexivity|]. split; [reflexivity|].
  unfold submit_job. split.
  - classify_cases r; reflexivity.
  - classify_cases r; try reflexivity.
    unfold record_job_id.
    destruct (json_body r) as [[ | | | | | |d]|]; try reflexivity.
    destruct (truthy _); reflexivity.
Qed.
